(** * Ray-Dutt and Bailar twists of an octahedral complex

    A shallow embedding of [twists.py]: the [OctahedralComplex] class
    (constructor, [generate_planes], [ray_dutt_twist], [bailar_twist]) and
    the [animate_twist] request handler, followed by the properties of the
    twist engine and of the animation sequencer.

    Numbers.  A Python float (and a float64 array entry) is modelled by a
    real number of [R]: rounding is not modelled.  An int64 array entry is
    modelled by an integer of [Z]; the only operation the program performs on
    such entries is the conversion to and from float64, so no wrap-around
    arises.  Arrays carry their dtype, because numpy converts on assignment
    into an existing array; see [setitem] for what the real numbers leave out
    of that conversion. *)

From Stdlib Require Import Reals List ZArith Lra Lia Bool String RNsatz.
Import ListNotations.

Local Open Scope R_scope.

(** ** Rows of three numbers *)

Record row (A : Type) : Type := Row { c0 : A; c1 : A; c2 : A }.
Arguments Row {A} _ _ _.
Arguments c0 {A} _.
Arguments c1 {A} _.
Arguments c2 {A} _.

Definition row_map {A B : Type} (f : A -> B) (p : row A) : row B :=
  Row (f (c0 p)) (f (c1 p)) (f (c2 p)).

Definition Point3 : Type := row R.

(** [s * v] for a Python float [s] and an array [v] of three entries. *)
Definition scale (s : R) (v : Point3) : Point3 := row_map (Rmult s) v.

(** [np.linalg.norm] of an array of three entries. *)
Definition norm (v : Point3) : R :=
  sqrt (c0 v * c0 v + c1 v * c1 v + c2 v * c2 v).

(** [np.deg2rad]. *)
Definition deg2rad (x : R) : R := x * (PI / 180).

(** ** numpy arrays of shape (N, 3) *)

Inductive ndarray : Type :=
| IntArray (rows : list (row Z))
| FloatArray (rows : list (row R)).

(** The float64 values of an array ([a.astype(float)]); this is also how
    scipy reads an array it is given. *)
Definition as_float (a : ndarray) : list Point3 :=
  match a with
  | IntArray rows => map (row_map IZR) rows
  | FloatArray rows => rows
  end.

Definition len (a : ndarray) : nat :=
  match a with
  | IntArray rows => List.length rows
  | FloatArray rows => List.length rows
  end.

(** [a.copy()]: a new array with the same entries; arrays are values here. *)
Definition copy (a : ndarray) : ndarray := a.

(** The C conversion of a float64 to an int64, which numpy applies when a
    float is stored into an integer array: rounding toward zero. *)
Definition trunc (r : R) : Z :=
  if Rle_dec 0 r then Int_part r else (- Int_part (- r))%Z.

(** ** Python outcomes *)

Inductive exn : Type :=
| IndexError
| ZeroDivisionError
| ValueError.

Inductive outcome (A : Type) : Type :=
| Returns (a : A)
| Raises (e : exn).
Arguments Returns {A} _.
Arguments Raises {A} _.

Definition obind {A B : Type} (o : outcome A) (k : A -> outcome B) : outcome B :=
  match o with
  | Returns a => k a
  | Raises e => Raises e
  end.

(** [a[idx]] for a list [idx] of indices: the rows at these indices, in the
    order of [idx]; an index past the end raises [IndexError]. *)
Fixpoint take_rows {A : Type} (idx : list nat) (rows : list A) : outcome (list A) :=
  match idx with
  | [] => Returns []
  | i :: idx' =>
      match nth_error rows i with
      | None => Raises IndexError
      | Some r => obind (take_rows idx' rows) (fun rs => Returns (r :: rs))
      end
  end.

Fixpoint update {A : Type} (i : nat) (v : A) (rows : list A) : option (list A) :=
  match rows, i with
  | [], _ => None
  | _ :: rest, O => Some (v :: rest)
  | r :: rest, S j => option_map (cons r) (update j v rest)
  end.

(** [a[idx] = vals] on rows of one type: row [idx[j]] becomes [vals[j]]. *)
Fixpoint put_rows {A : Type} (idx : list nat) (vals : list A) (rows : list A)
  : outcome (list A) :=
  match idx, vals with
  | i :: idx', v :: vals' =>
      match update i v rows with
      | None => Raises IndexError
      | Some rows' => put_rows idx' vals' rows'
      end
  | [], [] => Returns rows
  | _, _ => Raises ValueError
  end.

(** [a[idx]] on an array: the result keeps the dtype. *)
Definition getitem (a : ndarray) (idx : list nat) : outcome ndarray :=
  match a with
  | IntArray rows => obind (take_rows idx rows) (fun rs => Returns (IntArray rs))
  | FloatArray rows => obind (take_rows idx rows) (fun rs => Returns (FloatArray rs))
  end.

(** [a[idx] = vals] where [vals] is a float64 array: the values are converted
    to the dtype of [a], which does not change.

    For an integer array the entry stored here is the integer part of the real
    number that stands for the float.  The program stores the integer part of
    the float64 it computed.  The two are the same integer unless the real is
    an integer, or within rounding distance of one, and the float64 fell on
    the other side of it: a rotated coordinate that is 1 as a real may be
    computed as 0.9999999999999999 and stored as 0.  What is proved below
    about integer stores is stated for coordinates away from the integers, or
    for values the float computation gets exactly. *)
Definition setitem (a : ndarray) (idx : list nat) (vals : list Point3)
  : outcome ndarray :=
  match a with
  | IntArray rows =>
      obind (put_rows idx (map (row_map trunc) vals) rows)
            (fun rs => Returns (IntArray rs))
  | FloatArray rows =>
      obind (put_rows idx vals rows) (fun rs => Returns (FloatArray rs))
  end.

(** ** scipy.spatial.transform.Rotation

    A rotation is held as a unit quaternion (x, y, z, w), as scipy does. *)

Record Rotation : Type := Quat { qx : R; qy : R; qz : R; qw : R }.

(** [R.from_rotvec(v)]: the rotation by [norm v] radians about [v].  scipy
    computes [sin(angle/2)/angle] by a series near zero; its value there is
    1/2, and the vector part is zero at [v = 0] either way. *)
Definition from_rotvec (v : Point3) : Rotation :=
  let angle := norm v in
  let s := if Req_dec_T angle 0 then 1 / 2 else sin (angle / 2) / angle in
  Quat (s * c0 v) (s * c1 v) (s * c2 v) (cos (angle / 2)).

(** The rotation matrix of a unit quaternion applied to one point. *)
Definition apply1 (q : Rotation) (p : Point3) : Point3 :=
  let x := qx q in let y := qy q in let z := qz q in let w := qw q in
  let x2 := x * x in let y2 := y * y in let z2 := z * z in let w2 := w * w in
  let xy := x * y in let zw := z * w in let xz := x * z in
  let yw := y * w in let yz := y * z in let xw := x * w in
  Row ((x2 - y2 - z2 + w2) * c0 p + 2 * (xy - zw) * c1 p + 2 * (xz + yw) * c2 p)
      (2 * (xy + zw) * c0 p + (- x2 + y2 - z2 + w2) * c1 p + 2 * (yz - xw) * c2 p)
      (2 * (xz - yw) * c0 p + 2 * (yz + xw) * c1 p + (- x2 - y2 + z2 + w2) * c2 p).

(** [rotation.apply(a)]: every row of [a], read as float64, is rotated; the
    result is a float64 array of the same length and order. *)
Definition apply (q : Rotation) (a : ndarray) : list Point3 :=
  map (apply1 q) (as_float a).

(** ** Axis-angle rotation, as the specification words it

    The rotation by [theta] radians about the unit axis [k], right-hand rule
    (Rodrigues' formula).  This definition is the reference the twists are
    compared with; the program itself goes through [from_rotvec]. *)

Definition dot (u v : Point3) : R := c0 u * c0 v + c1 u * c1 v + c2 u * c2 v.

Definition cross (u v : Point3) : Point3 :=
  Row (c1 u * c2 v - c2 u * c1 v)
      (c2 u * c0 v - c0 u * c2 v)
      (c0 u * c1 v - c1 u * c0 v).

Definition rotate (theta : R) (k : Point3) (p : Point3) : Point3 :=
  let kxp := cross k p in
  let kp := dot k p in
  Row (c0 p * cos theta + c0 kxp * sin theta + c0 k * kp * (1 - cos theta))
      (c1 p * cos theta + c1 kxp * sin theta + c1 k * kp * (1 - cos theta))
      (c2 p * cos theta + c2 kxp * sin theta + c2 k * kp * (1 - cos theta)).

Definition unit_axis (k : Point3) : Prop := dot k k = 1.

(** The axes the two twists use. *)
Definition c3_axis : Point3 := scale (/ norm (Row 1 1 1)) (Row 1 1 1).
Definition z_axis : Point3 := Row 0 0 1.

(** ** The class [OctahedralComplex] *)

Record OctahedralComplex : Type := Complex {
  initial_positions : ndarray;
  positions : ndarray
}.

(** Methods and handlers run on the complex they are called on: they may
    replace its fields, and they return a value or raise.  A raise keeps the
    assignments made before it. *)
Definition M (A : Type) : Type :=
  OctahedralComplex -> outcome A * OctahedralComplex.

Definition ret {A : Type} (a : A) : M A := fun self => (Returns a, self).

Definition bind {A B : Type} (m : M A) (k : A -> M B) : M B :=
  fun self =>
    match m self with
    | (Returns a, self') => k a self'
    | (Raises e, self') => (Raises e, self')
    end.

Definition lift {A : Type} (o : outcome A) : M A := fun self => (o, self).

Notation "x <- m ;; k" := (bind m (fun x => k))
  (at level 61, m at next level, right associativity).
Notation "m ;;; k" := (bind m (fun _ => k))
  (at level 61, right associativity).

Definition get_initial_positions : M ndarray :=
  fun self => (Returns (initial_positions self), self).

Definition get_positions : M ndarray :=
  fun self => (Returns (positions self), self).

Definition set_positions (a : ndarray) : M unit :=
  fun self => (Returns tt, Complex (initial_positions self) a).

Definition default_positions : ndarray :=
  IntArray [ Row 1 0 0; Row (-1) 0 0; Row 0 1 0;
             Row 0 (-1) 0; Row 0 0 1; Row 0 0 (-1) ]%Z.

(** [OctahedralComplex(initial_positions)]; the argument defaults to [None].
    The constructor has no check and no [raise]. *)
Definition init (arg : option ndarray) : outcome OctahedralComplex :=
  let initial_positions :=
    match arg with
    | None => default_positions
    | Some a => a
    end in
  Returns (Complex initial_positions (copy initial_positions)).

(** Python numbers, as [tolist] produces them: ints from an integer array,
    floats from a float array. *)
Inductive number : Type :=
| PyInt (z : Z)
| PyFloat (r : R).

Definition number_value (n : number) : R :=
  match n with
  | PyInt z => IZR z
  | PyFloat r => r
  end.

(** [a.tolist()] for an array of shape (N, 3). *)
Definition tolist (a : ndarray) : list (list number) :=
  match a with
  | IntArray rows => map (fun p => [PyInt (c0 p); PyInt (c1 p); PyInt (c2 p)]) rows
  | FloatArray rows => map (fun p => [PyFloat (c0 p); PyFloat (c1 p); PyFloat (c2 p)]) rows
  end.

(** [a[:, j].tolist()] for j = 0, 1, 2. *)
Definition column (j : nat) (a : ndarray) : list number :=
  let pick {A : Type} (p : row A) : A :=
    match j with O => c0 p | S O => c1 p | _ => c2 p end in
  match a with
  | IntArray rows => map (fun p => PyInt (pick p)) rows
  | FloatArray rows => map (fun p => PyFloat (pick p)) rows
  end.

Record plane : Type := Plane {
  plane_x : list number;
  plane_y : list number;
  plane_z : list number
}.

Definition faces : list (list nat) :=
  [ [0; 2; 4]; [0; 2; 5]; [0; 3; 4]; [0; 3; 5];
    [1; 2; 4]; [1; 2; 5]; [1; 3; 4]; [1; 3; 5] ]%nat.

(** The loop of [generate_planes] over the remaining faces, appending to
    [plane_coords]. *)
Fixpoint planes_loop (fs : list (list nat)) (plane_coords : list plane)
  : M (list plane) :=
  match fs with
  | [] => ret plane_coords
  | face :: fs' =>
      pos <- get_positions ;;
      vertices <- lift (getitem pos face) ;;
      planes_loop fs'
        (plane_coords ++
           [Plane (column 0 vertices) (column 1 vertices) (column 2 vertices)])
  end.

Definition generate_planes : M (list plane) := planes_loop faces [].

Definition ray_dutt_twist (angle progression : R) : M ndarray :=
  let theta := deg2rad (angle * progression) in
  let axis := Row 1 1 1 in
  let axis := scale (/ norm axis) axis in
  let rotation := from_rotvec (scale theta axis) in
  ip <- get_initial_positions ;;
  set_positions (FloatArray (apply rotation ip)) ;;;
  get_positions.

Definition bailar_twist (angle progression : R) : M ndarray :=
  let theta := deg2rad (angle * progression) in
  let top_indices := [0; 2; 4]%nat in
  let bottom_indices := [1; 3; 5]%nat in
  let top_rotation := from_rotvec (scale theta (Row 0 0 1)) in
  let bottom_rotation := from_rotvec (scale (- theta) (Row 0 0 1)) in
  ip <- get_initial_positions ;;
  set_positions (copy ip) ;;;
  top <- lift (getitem ip top_indices) ;;
  pos <- get_positions ;;
  pos' <- lift (setitem pos top_indices (apply top_rotation top)) ;;
  set_positions pos' ;;;
  bottom <- lift (getitem ip bottom_indices) ;;
  pos <- get_positions ;;
  pos' <- lift (setitem pos bottom_indices (apply bottom_rotation bottom)) ;;
  set_positions pos' ;;;
  get_positions.

(** ** The handler [animate_twist] *)

Definition edges : list (list nat) :=
  [ [0; 1]; [2; 3]; [4; 5];
    [0; 2]; [0; 4]; [1; 3]; [1; 5]; [2; 4]; [2; 5]; [3; 4]; [3; 5] ]%nat.

Record Frame : Type := MkFrame {
  frame_positions : list (list number);
  frame_edges : list (list nat);
  frame_planes : list plane
}.

(** The JSON body of the request; an absent key is [None]. *)
Record request : Type := Request {
  req_twist_type : option string;
  req_angle : option R;
  req_frames : option Z
}.

Definition get {A : Type} (field : option A) (default : A) : A :=
  match field with
  | Some v => v
  | None => default
  end.

(** [range(n)] *)
Definition range (n : Z) : list Z := map Z.of_nat (seq 0 (Z.to_nat n)).

(** [i / n] on Python ints: true division. *)
Definition truediv (i n : Z) : outcome R :=
  if Z.eqb n 0 then Raises ZeroDivisionError else Returns (IZR i / IZR n).

(** One iteration of the loop: the frame for index [i]. *)
Definition frame_at (twist_type : string) (max_angle : R) (num_frames i : Z)
  : M Frame :=
  progression <- lift (truediv i num_frames) ;;
  positions <-
    (if String.eqb twist_type "ray_dutt"
     then ray_dutt_twist max_angle progression
     else bailar_twist max_angle progression) ;;
  planes <- generate_planes ;;
  ret (MkFrame (tolist positions) edges planes).

Fixpoint frames_loop (twist_type : string) (max_angle : R) (num_frames : Z)
  (indices : list Z) (frames : list Frame) : M (list Frame) :=
  match indices with
  | [] => ret frames
  | i :: rest =>
      f <- frame_at twist_type max_angle num_frames i ;;
      frames_loop twist_type max_angle num_frames rest (frames ++ [f])
  end.

Definition animate_twist (req : request) : M (list Frame) :=
  let twist_type := get (req_twist_type req) "ray_dutt"%string in
  let max_angle := get (req_angle req) 45 in
  let num_frames := get (req_frames req) 30%Z in
  frames_loop twist_type max_angle num_frames (range (num_frames + 1)) [].

(** ** Reference notions used by the properties *)

(** The two rotations of the Bailar twist on one point: by plus and by minus
    the effective angle about the z axis. *)
Definition top_rot (angle progression : R) (p : Point3) : Point3 :=
  rotate (deg2rad (angle * progression)) z_axis p.

Definition bottom_rot (angle progression : R) (p : Point3) : Point3 :=
  rotate (- deg2rad (angle * progression)) z_axis p.

(** The twist a request selects. *)
Definition twist (twist_type : string) : R -> R -> M ndarray :=
  if String.eqb twist_type "ray_dutt" then ray_dutt_twist else bailar_twist.

(** [f] is the frame of progression [p]: the positions the twist returns at
    [p], the edge list, and the planes of the complex right after the twist. *)
Definition frame_of_progression (twist_type : string) (max_angle p : R)
  (self : OctahedralComplex) (f : Frame) : Prop :=
  exists pos self',
    twist twist_type max_angle p self = (Returns pos, self') /\
    frame_positions f = tolist pos /\
    frame_edges f = edges /\
    fst (generate_planes self') = Returns (frame_planes f).

(** The float values of the rows of a [tolist] result. *)
Definition values (l : list (list number)) : list (list R) :=
  map (map number_value) l.

Definition coords (p : Point3) : list R := [c0 p; c1 p; c2 p].

(** Entry [j] of row [i] of an array, as [tolist] shows it. *)
Definition entry (a : ndarray) (i j : nat) : option number :=
  match nth_error (tolist a) i with
  | Some r => nth_error r j
  | None => None
  end.

(** Operations a caller may perform on a complex, and the complex they leave
    behind, whether they return or raise. *)
Inductive op : Type :=
| CallRayDutt (angle progression : R)
| CallBailar (angle progression : R)
| CallGeneratePlanes
| CallAnimate (req : request).

Definition run_op (o : op) (self : OctahedralComplex) : OctahedralComplex :=
  match o with
  | CallRayDutt a p => snd (ray_dutt_twist a p self)
  | CallBailar a p => snd (bailar_twist a p self)
  | CallGeneratePlanes => snd (generate_planes self)
  | CallAnimate req => snd (animate_twist req self)
  end.

Definition run_ops (ops : list op) (self : OctahedralComplex) : OctahedralComplex :=
  fold_left (fun s o => run_op o s) ops self.

(** Concrete inputs. *)
Definition default_complex : OctahedralComplex :=
  Complex default_positions (copy default_positions).

Definition five_points : ndarray :=
  FloatArray [Row 1 0 0; Row (-1) 0 0; Row 0 1 0; Row 0 (-1) 0; Row 0 0 1].

Definition one_point : ndarray := FloatArray [Row 1 0 0].

Definition truncated_positions : ndarray :=
  IntArray [ Row 0 0 0; Row 0 0 0; Row 0 0 0;
             Row 0 0 0; Row 0 0 1; Row 0 0 (-1) ]%Z.

(** The state a complex is in between calls: its reference configuration is
    [ip] and its current positions have as many rows. *)
Definition well_formed (ip : ndarray) (self : OctahedralComplex) : Prop :=
  initial_positions self = ip /\ len (positions self) = len ip.

(** A computation keeps the complex in such a state. *)
Definition keeps {A : Type} (ip : ndarray) (m : M A) : Prop :=
  forall self, well_formed ip self -> well_formed ip (snd (m self)).

(** ** The handler [initial_data]

    It answers with the same three keys as a frame, read from the process-wide
    complex as it is at the time of the request. *)
Definition initial_data : M Frame :=
  pos <- get_positions ;;
  planes <- generate_planes ;;
  ret (MkFrame (tolist pos) edges planes).

(** ** Further reference notions *)

(** Entry [j] of row [i] of a list of rows. *)
Definition cell (l : list (list number)) (i j : nat) : option number :=
  match nth_error l i with
  | Some r => nth_error r j
  | None => None
  end.

(** The cyclic shift of the coordinates, x to y to z to x. *)
Definition cycle (p : Point3) : Point3 := Row (c2 p) (c0 p) (c1 p).

(** The half turn about the z axis. *)
Definition half_turn (p : Point3) : Point3 := Row (- c0 p) (- c1 p) (c2 p).

(** The squared distance of a point from the z axis. *)
Definition radial2 (p : Point3) : R := c0 p * c0 p + c1 p * c1 p.

(** Two points at the same height and the same distance from the z axis. *)
Definition same_height_and_radius (u v : Point3) : Prop :=
  c2 v = c2 u /\ radial2 v = radial2 u /\ norm v = norm u.

(** The fixed part of a frame: the eleven edges, [rows] positions of three
    numbers each, eight planes of three x, three y and three z. *)
Definition frame_topology (rows : nat) (f : Frame) : Prop :=
  frame_edges f = edges /\
  List.length (frame_edges f) = 11%nat /\
  List.length (frame_positions f) = rows /\
  Forall (fun r => List.length r = 3%nat) (frame_positions f) /\
  List.length (frame_planes f) = 8%nat /\
  Forall (fun pl => List.length (plane_x pl) = 3%nat /\
                    List.length (plane_y pl) = 3%nat /\
                    List.length (plane_z pl) = 3%nat) (frame_planes f).

(** The planes of a frame are those of its own positions: plane [i] lists
    the coordinates of the positions at the indices of face [i]. *)
Definition planes_match (l : list (list number)) (planes : list plane) : Prop :=
  forall i a b c, nth_error faces i = Some [a; b; c] ->
    exists pl, nth_error planes i = Some pl /\
      map Some (plane_x pl) = [cell l a 0%nat; cell l b 0%nat; cell l c 0%nat] /\
      map Some (plane_y pl) = [cell l a 1%nat; cell l b 1%nat; cell l c 1%nat] /\
      map Some (plane_z pl) = [cell l a 2%nat; cell l b 2%nat; cell l c 2%nat].

(** * Properties *)

(** ** Rotation vectors and axis-angle rotations *)

Lemma row_eq {A : Type} (a b c a' b' c' : A) :
  a = a' -> b = b' -> c = c' -> Row a b c = Row a' b' c'.
Proof. intros; subst; reflexivity. Qed.

Lemma norm_scale_unit (theta : R) (k : Point3) :
  unit_axis k -> norm (scale theta k) = Rabs theta.
Proof.
  intros Hk. unfold norm, scale, row_map; simpl.
  rewrite <- sqrt_Rsqr_abs. f_equal. unfold Rsqr.
  unfold unit_axis, dot in Hk.
  transitivity (theta * theta * (c0 k * c0 k + c1 k * c1 k + c2 k * c2 k)).
  - ring.
  - rewrite Hk. ring.
Qed.

Lemma half_neg (t : R) : - t / 2 = - (t / 2).
Proof. field. Qed.

(** The quaternion scipy builds for the rotation vector [theta * k]. *)
Lemma from_rotvec_axis_angle (theta : R) (k : Point3) :
  unit_axis k ->
  from_rotvec (scale theta k) =
    Quat (sin (theta / 2) * c0 k) (sin (theta / 2) * c1 k)
         (sin (theta / 2) * c2 k) (cos (theta / 2)).
Proof.
  intros Hk. unfold from_rotvec. rewrite (norm_scale_unit theta k Hk).
  destruct (Req_dec_T (Rabs theta) 0) as [Hz | Hnz].
  - assert (theta = 0) as ->.
    { destruct (Req_dec theta 0) as [|Hn]; [assumption|].
      exfalso. exact (Rabs_no_R0 theta Hn Hz). }
    rewrite Rabs_R0. unfold scale, row_map; simpl.
    replace (0 / 2) with 0 by field. rewrite sin_0.
    f_equal; ring.
  - assert (Ht : theta <> 0).
    { intros ->. apply Hnz. apply Rabs_R0. }
    unfold scale, row_map; simpl.
    destruct (Rcase_abs theta) as [Hneg | Hpos].
    + rewrite (Rabs_left theta Hneg), half_neg, sin_neg, cos_neg.
      f_equal; field; assumption.
    + rewrite (Rabs_right theta Hpos).
      f_equal; field; assumption.
Qed.

Lemma sin_half (t : R) : sin t = 2 * sin (t / 2) * cos (t / 2).
Proof.
  replace t with (2 * (t / 2)) at 1 by field. apply sin_2a.
Qed.

Lemma cos_half (t : R) :
  cos t = cos (t / 2) * cos (t / 2) - sin (t / 2) * sin (t / 2).
Proof.
  replace t with (2 * (t / 2)) at 1 by field. apply cos_2a.
Qed.

Lemma sin2_cos2_half (t : R) :
  sin (t / 2) * sin (t / 2) + cos (t / 2) * cos (t / 2) = 1.
Proof.
  generalize (sin2_cos2 (t / 2)). unfold Rsqr. tauto.
Qed.

(** [from_rotvec (theta * k)] followed by [apply] is the rotation by [theta]
    about [k], for every sign of [theta]. *)
Lemma apply1_from_rotvec (theta : R) (k p : Point3) :
  unit_axis k ->
  apply1 (from_rotvec (scale theta k)) p = rotate theta k p.
Proof.
  intros Hk. rewrite (from_rotvec_axis_angle theta k Hk).
  unfold apply1, rotate, cross, dot; simpl.
  rewrite (sin_half theta), (cos_half theta).
  pose proof (sin2_cos2_half theta) as Hsc.
  unfold unit_axis, dot in Hk.
  destruct k as [kx ky kz], p as [px py pz]; simpl in *.
  set (s := sin (theta / 2)) in *. set (c := cos (theta / 2)) in *.
  apply row_eq; nsatz.
Qed.

Lemma norm_111 : norm (Row 1 1 1) = sqrt 3.
Proof. unfold norm; simpl. f_equal. ring. Qed.

Lemma unit_c3_axis : unit_axis c3_axis.
Proof.
  unfold unit_axis, c3_axis, dot, scale, row_map; simpl.
  rewrite norm_111.
  assert (H3 : sqrt 3 * sqrt 3 = 3) by (apply sqrt_sqrt; lra).
  assert (Hn : sqrt 3 <> 0).
  { intros E. rewrite E in H3. lra. }
  transitivity (3 * / (sqrt 3 * sqrt 3)).
  - field. assumption.
  - rewrite H3. field.
Qed.

Lemma unit_z_axis : unit_axis z_axis.
Proof. unfold unit_axis, z_axis, dot; simpl. ring. Qed.

(** About the z axis the rotation is the plane rotation of x and y. *)
Lemma rotate_z (theta : R) (p : Point3) :
  rotate theta z_axis p =
    Row (c0 p * cos theta - c1 p * sin theta)
        (c0 p * sin theta + c1 p * cos theta)
        (c2 p).
Proof.
  unfold rotate, z_axis, cross, dot; simpl. apply row_eq; ring.
Qed.

Lemma rotate_zero (k p : Point3) : rotate 0 k p = p.
Proof.
  unfold rotate. rewrite cos_0, sin_0. destruct p; simpl.
  apply row_eq; ring.
Qed.

(** ** Conversion of floats to integers *)

Lemma Int_part_IZR (z : Z) : Int_part (IZR z) = z.
Proof. symmetry. apply Int_part_spec. lra. Qed.

Lemma trunc_IZR (z : Z) : trunc (IZR z) = z.
Proof.
  unfold trunc. destruct (Rle_dec 0 (IZR z)).
  - apply Int_part_IZR.
  - rewrite <- opp_IZR, Int_part_IZR. lia.
Qed.

Lemma trunc_small (r : R) : -1 < r < 1 -> trunc r = 0%Z.
Proof.
  intros [Hlo Hhi]. unfold trunc. destruct (Rle_dec 0 r) as [H0 | H0].
  - symmetry. apply Int_part_spec. simpl. lra.
  - assert (E : 0%Z = Int_part (- r)) by (apply Int_part_spec; simpl; lra).
    rewrite <- E. reflexivity.
Qed.

Lemma row_map_trunc_IZR (p : row Z) : row_map trunc (row_map IZR p) = p.
Proof. destruct p; unfold row_map; simpl. rewrite !trunc_IZR. reflexivity. Qed.

(** ** What the two twists compute *)

Arguments apply1 : simpl never.
Arguments from_rotvec : simpl never.
Arguments scale : simpl never.
Arguments rotate : simpl never.
Arguments row_map : simpl never.

Lemma apply_from_rotvec (theta : R) (k : Point3) (a : ndarray) :
  unit_axis k ->
  apply (from_rotvec (scale theta k)) a = map (rotate theta k) (as_float a).
Proof.
  intros Hk. unfold apply. apply map_ext. intros p.
  apply apply1_from_rotvec. assumption.
Qed.

Lemma c3_axis_components :
  c3_axis = Row (1 / sqrt 3) (1 / sqrt 3) (1 / sqrt 3).
Proof.
  unfold c3_axis. rewrite norm_111. unfold scale, row_map; simpl.
  apply row_eq; unfold Rdiv; ring.
Qed.

Lemma ray_dutt_twist_eq (angle progression : R) (self : OctahedralComplex) :
  let out := FloatArray (map (rotate (deg2rad (angle * progression)) c3_axis)
                             (as_float (initial_positions self))) in
  ray_dutt_twist angle progression self =
    (Returns out, Complex (initial_positions self) out).
Proof.
  unfold ray_dutt_twist, bind, get_initial_positions, set_positions, get_positions.
  simpl. fold c3_axis. rewrite (apply_from_rotvec _ _ _ unit_c3_axis).
  reflexivity.
Qed.

Section Bailar.
Variables angle progression : R.
Let theta := deg2rad (angle * progression).
Let top_rot := top_rot angle progression.
Let bottom_rot := bottom_rot angle progression.

Lemma bailar_twist_float (p0 p1 p2 p3 p4 p5 : Point3) (rest : list Point3)
  (pos : ndarray) :
  let ip := FloatArray (p0 :: p1 :: p2 :: p3 :: p4 :: p5 :: rest) in
  let out := FloatArray (top_rot p0 :: bottom_rot p1 :: top_rot p2 ::
                         bottom_rot p3 :: top_rot p4 :: bottom_rot p5 :: rest) in
  bailar_twist angle progression (Complex ip pos) =
    (Returns out, Complex ip out).
Proof.
  unfold bailar_twist, bind, lift, get_initial_positions, set_positions,
    get_positions, copy, apply.
  simpl. fold z_axis. fold theta.
  rewrite !(apply1_from_rotvec _ _ _ unit_z_axis).
  reflexivity.
Qed.

Lemma bailar_twist_int (p0 p1 p2 p3 p4 p5 : row Z) (rest : list (row Z))
  (pos : ndarray) :
  let ip := IntArray (p0 :: p1 :: p2 :: p3 :: p4 :: p5 :: rest) in
  let top p := row_map trunc (top_rot (row_map IZR p)) in
  let bottom p := row_map trunc (bottom_rot (row_map IZR p)) in
  let out := IntArray (top p0 :: bottom p1 :: top p2 ::
                       bottom p3 :: top p4 :: bottom p5 :: rest) in
  bailar_twist angle progression (Complex ip pos) =
    (Returns out, Complex ip out).
Proof.
  unfold bailar_twist, bind, lift, get_initial_positions, set_positions,
    get_positions, copy, apply.
  simpl. fold z_axis. fold theta.
  rewrite !(apply1_from_rotvec _ _ _ unit_z_axis).
  reflexivity.
Qed.
End Bailar.

Lemma rotate_on_z_axis (theta z : R) :
  rotate theta z_axis (Row 0 0 z) = Row 0 0 z.
Proof. rewrite rotate_z; simpl. apply row_eq; ring. Qed.

Lemma map_rotate_zero (k : Point3) (l : list Point3) : map (rotate 0 k) l = l.
Proof.
  induction l as [|p l IH]; simpl; [reflexivity|].
  rewrite rotate_zero, IH. reflexivity.
Qed.

Lemma deg2rad_zero (a : R) : deg2rad (a * 0) = 0.
Proof. unfold deg2rad. ring. Qed.

Lemma top_rot_zero (a : R) (p : Point3) : top_rot a 0 p = p.
Proof. unfold top_rot. rewrite deg2rad_zero. apply rotate_zero. Qed.

Lemma bottom_rot_zero (a : R) (p : Point3) : bottom_rot a 0 p = p.
Proof.
  unfold bottom_rot. rewrite deg2rad_zero, Ropp_0. apply rotate_zero.
Qed.

(** ** The Ray-Dutt twist *)

(** C1: for every initial vertex set, angle [a] and progression [p],
    [ray_dutt_twist a p] returns the initial positions, each transformed by
    the one rotation of [deg2rad (a * p)] radians about the unit axis
    (1,1,1)/sqrt 3, in the same order, and stores the result as the current
    positions. *)
Theorem ray_dutt_twist_rotates_all (self : OctahedralComplex) (a p : R) :
  let theta := deg2rad (a * p) in
  let k := Row (1 / sqrt 3) (1 / sqrt 3) (1 / sqrt 3) in
  exists out,
    ray_dutt_twist a p self =
      (Returns (FloatArray out),
       Complex (initial_positions self) (FloatArray out)) /\
    unit_axis k /\
    List.length out = len (initial_positions self) /\
    forall i,
      nth_error out i =
        option_map (rotate theta k) (nth_error (as_float (initial_positions self)) i).
Proof.
  intros theta k.
  assert (Ek : k = c3_axis) by (symmetry; apply c3_axis_components).
  exists (map (rotate theta k) (as_float (initial_positions self))).
  split; [|split; [|split]].
  - rewrite Ek. apply ray_dutt_twist_eq.
  - rewrite Ek. apply unit_c3_axis.
  - rewrite length_map. destruct (initial_positions self); simpl;
      [apply length_map | reflexivity].
  - intros i. apply nth_error_map.
Qed.

(** ** The Bailar twist *)

Lemma deg2rad_60 : deg2rad (60 * 1) = PI / 3.
Proof. unfold deg2rad. field. Qed.

Lemma half_sqrt3_bounds : 0 < sqrt 3 / 2 < 1.
Proof.
  assert (H3 : sqrt 3 * sqrt 3 = 3) by (apply sqrt_sqrt; lra).
  assert (Hp : 0 < sqrt 3) by (apply sqrt_lt_R0; lra).
  split; nra.
Qed.

(** On a float array of six rows the Bailar twist does rotate the rows 0, 2, 4
    by plus the effective angle and the rows 1, 3, 5 by minus it, from the
    initial positions. *)
Lemma bailar_twist_on_floats (a p : R) (p0 p1 p2 p3 p4 p5 : Point3)
  (pos : ndarray) :
  fst (bailar_twist a p
         (Complex (FloatArray [p0; p1; p2; p3; p4; p5]) pos)) =
    Returns (FloatArray [top_rot a p p0; bottom_rot a p p1; top_rot a p p2;
                         bottom_rot a p p3; top_rot a p p4; bottom_rot a p p5]).
Proof. rewrite bailar_twist_float. reflexivity. Qed.

(** C2, at the default complex with angle 60 and progression 1: the claim
    asks for vertex 0 at (1/2, sqrt 3 / 2, 0), the rotation of (1, 0, 0) by 60
    degrees about z.  The default positions are an integer array, the rotated
    coordinates are stored into a copy of it, and each is cut to an integer:
    the four vertices of the xy plane land on the origin. *)
Theorem bailar_twist_default_truncates :
  init None = Returns default_complex /\
  bailar_twist 60 1 default_complex =
    (Returns truncated_positions,
     Complex default_positions truncated_positions) /\
  nth_error (as_float (initial_positions default_complex)) 0 = Some (Row 1 0 0) /\
  top_rot 60 1 (Row 1 0 0) = Row (1 / 2) (sqrt 3 / 2) 0 /\
  nth_error (as_float truncated_positions) 0 = Some (Row 0 0 0) /\
  nth_error (as_float truncated_positions) 0 <> Some (top_rot 60 1 (Row 1 0 0)).
Proof.
  pose proof half_sqrt3_bounds as Hs.
  assert (Etop : top_rot 60 1 (Row 1 0 0) = Row (1 / 2) (sqrt 3 / 2) 0).
  { unfold top_rot. rewrite deg2rad_60, rotate_z, cos_PI3, sin_PI3; simpl.
    apply row_eq; field. }
  split; [reflexivity|]. split; [|split; [|split; [|split]]].
  - unfold default_complex, default_positions, copy. rewrite bailar_twist_int.
    unfold top_rot, bottom_rot, truncated_positions.
    rewrite deg2rad_60, !rotate_z, cos_neg, sin_neg, cos_PI3, sin_PI3.
    unfold row_map; simpl.
    repeat f_equal; try (apply trunc_small; lra);
      match goal with
      | |- trunc ?r = ?z => replace r with (IZR z) by (simpl; lra); apply trunc_IZR
      end.
  - reflexivity.
  - exact Etop.
  - reflexivity.
  - rewrite Etop. simpl. unfold row_map; simpl. intros E.
    injection E; intros; lra.
Qed.

(** ** Progression zero *)

Lemma ray_dutt_twist_zero (self : OctahedralComplex) (a : R) :
  exists out self',
    ray_dutt_twist a 0 self = (Returns out, self') /\
    as_float out = as_float (initial_positions self).
Proof.
  do 2 eexists. split; [apply ray_dutt_twist_eq|].
  simpl. rewrite deg2rad_zero. apply map_rotate_zero.
Qed.

Lemma bailar_twist_zero (self : OctahedralComplex) (a : R) :
  (6 <= len (initial_positions self))%nat ->
  exists out self',
    bailar_twist a 0 self = (Returns out, self') /\
    as_float out = as_float (initial_positions self).
Proof.
  intros Hlen. destruct self as [ip pos]; simpl in Hlen.
  destruct ip as [rows | rows]; simpl in Hlen;
    do 6 (destruct rows as [|? rows]; [simpl in Hlen; lia|]).
  - rewrite bailar_twist_int. do 2 eexists. split; [reflexivity|].
    rewrite !top_rot_zero, !bottom_rot_zero, !row_map_trunc_IZR.
    reflexivity.
  - rewrite bailar_twist_float. do 2 eexists. split; [reflexivity|].
    rewrite !top_rot_zero, !bottom_rot_zero. reflexivity.
Qed.

(** C3: for every initial vertex set and every angle, both twists at
    progression 0 return the initial vertex set. *)
Theorem twists_at_zero_return_initial (self : OctahedralComplex) (a : R) :
  (6 <= len (initial_positions self))%nat ->
  (exists out self',
      ray_dutt_twist a 0 self = (Returns out, self') /\
      as_float out = as_float (initial_positions self)) /\
  (exists out self',
      bailar_twist a 0 self = (Returns out, self') /\
      as_float out = as_float (initial_positions self)).
Proof.
  intros Hlen. split.
  - apply ray_dutt_twist_zero.
  - apply bailar_twist_zero. exact Hlen.
Qed.

Lemma twists_at_zero_return_initial_witness :
  (6 <= len (initial_positions default_complex))%nat /\
  (exists out self',
      ray_dutt_twist 45 0 default_complex = (Returns out, self') /\
      as_float out = as_float (initial_positions default_complex)) /\
  (exists out self',
      bailar_twist 45 0 default_complex = (Returns out, self') /\
      as_float out = as_float (initial_positions default_complex)).
Proof.
  split; [simpl; lia|].
  apply (twists_at_zero_return_initial default_complex 45).
  simpl; lia.
Defined.

(** ** What the operations do to the complex *)

Lemma keeps_ret {A : Type} (ip : ndarray) (a : A) : keeps ip (ret a).
Proof. intros self H. exact H. Qed.

Lemma keeps_lift {A : Type} (ip : ndarray) (o : outcome A) : keeps ip (lift o).
Proof. intros self H. exact H. Qed.

Lemma keeps_bind {A B : Type} (ip : ndarray) (m : M A) (k : A -> M B) :
  keeps ip m -> (forall a, keeps ip (k a)) -> keeps ip (bind m k).
Proof.
  intros Hm Hk self Hwf. unfold bind.
  specialize (Hm self Hwf).
  destruct (m self) as [[a | e] self']; simpl in Hm.
  - apply Hk. exact Hm.
  - exact Hm.
Qed.

Lemma len_as_float (a : ndarray) : List.length (as_float a) = len a.
Proof. destruct a; simpl; [apply length_map | reflexivity]. Qed.

Lemma planes_loop_state (fs : list (list nat)) :
  forall acc self, snd (planes_loop fs acc self) = self.
Proof.
  induction fs as [|face fs IH]; intros acc self; simpl; [reflexivity|].
  unfold bind, get_positions, lift.
  destruct (getitem (positions self) face) as [vertices | e]; simpl.
  - apply IH.
  - reflexivity.
Qed.

Lemma generate_planes_state (self : OctahedralComplex) :
  snd (generate_planes self) = self.
Proof. apply planes_loop_state. Qed.

Lemma keeps_generate_planes (ip : ndarray) : keeps ip generate_planes.
Proof. intros self H. rewrite generate_planes_state. exact H. Qed.

Lemma ray_dutt_twist_state (a p : R) (self : OctahedralComplex) :
  well_formed (initial_positions self) (snd (ray_dutt_twist a p self)).
Proof.
  rewrite ray_dutt_twist_eq. split; simpl; [reflexivity|].
  rewrite length_map. apply len_as_float.
Qed.

Lemma bailar_twist_state (a p : R) (self : OctahedralComplex) :
  well_formed (initial_positions self) (snd (bailar_twist a p self)).
Proof.
  destruct self as [ip pos].
  unfold bailar_twist, bind, lift, get_initial_positions, set_positions,
    get_positions, copy, apply.
  destruct ip as [rows | rows];
    do 6 (try destruct rows as [|? rows]); simpl; split; reflexivity.
Qed.

Lemma keeps_ray_dutt_twist (ip : ndarray) (a p : R) :
  keeps ip (ray_dutt_twist a p).
Proof.
  intros self [Hi _]. rewrite <- Hi. apply ray_dutt_twist_state.
Qed.

Lemma keeps_bailar_twist (ip : ndarray) (a p : R) :
  keeps ip (bailar_twist a p).
Proof.
  intros self [Hi _]. rewrite <- Hi. apply bailar_twist_state.
Qed.

Lemma keeps_frame_at (ip : ndarray) (twist_type : string) (a : R) (n i : Z) :
  keeps ip (frame_at twist_type a n i).
Proof.
  unfold frame_at. apply keeps_bind; [apply keeps_lift|]. intros progression.
  apply keeps_bind.
  - destruct (String.eqb twist_type "ray_dutt");
      [apply keeps_ray_dutt_twist | apply keeps_bailar_twist].
  - intros pos. apply keeps_bind; [apply keeps_generate_planes|].
    intros planes. apply keeps_ret.
Qed.

Lemma keeps_frames_loop (ip : ndarray) (twist_type : string) (a : R) (n : Z)
  (indices : list Z) :
  forall frames, keeps ip (frames_loop twist_type a n indices frames).
Proof.
  induction indices as [|i rest IH]; intros frames; simpl.
  - apply keeps_ret.
  - apply keeps_bind; [apply keeps_frame_at|]. intros f. apply IH.
Qed.

Lemma keeps_animate_twist (ip : ndarray) (req : request) :
  keeps ip (animate_twist req).
Proof. unfold animate_twist. apply keeps_frames_loop. Qed.

Lemma run_op_well_formed (ip : ndarray) (o : op) (self : OctahedralComplex) :
  well_formed ip self -> well_formed ip (run_op o self).
Proof.
  destruct o; simpl.
  - apply keeps_ray_dutt_twist.
  - apply keeps_bailar_twist.
  - apply keeps_generate_planes.
  - apply keeps_animate_twist.
Qed.

Lemma run_ops_well_formed (ip : ndarray) (ops : list op) :
  forall self, well_formed ip self -> well_formed ip (run_ops ops self).
Proof.
  induction ops as [|o ops IH]; intros self H; simpl; [exact H|].
  apply IH. apply run_op_well_formed. exact H.
Qed.

Lemma ray_dutt_twist_irrelevant (a p : R) (ip pos1 pos2 : ndarray) :
  ray_dutt_twist a p (Complex ip pos1) = ray_dutt_twist a p (Complex ip pos2).
Proof. rewrite !ray_dutt_twist_eq. reflexivity. Qed.

Lemma bailar_twist_irrelevant (a p : R) (ip pos1 pos2 : ndarray) :
  bailar_twist a p (Complex ip pos1) = bailar_twist a p (Complex ip pos2).
Proof. reflexivity. Qed.

Lemma twist_irrelevant (twist_type : string) (a p : R) (ip pos1 pos2 : ndarray) :
  twist twist_type a p (Complex ip pos1) = twist twist_type a p (Complex ip pos2).
Proof.
  unfold twist. destruct (String.eqb twist_type "ray_dutt");
    [apply ray_dutt_twist_irrelevant | apply bailar_twist_irrelevant].
Qed.

(** ** Independence of the history *)

(** C4: a twist call depends on the initial vertex set, the angle and the
    progression only: the current positions do not matter, and after any
    earlier calls on the same complex the call returns what it returns on the
    freshly constructed complex; [ray_dutt_twist a 1] is the rotation of the
    initial set by [a] degrees about (1,1,1)/sqrt 3. *)
Theorem twist_independent_of_history (ip pos1 pos2 : ndarray) (ops : list op)
  (twist_type : string) (a p : R) :
  let fresh := Complex ip (copy ip) in
  let k := Row (1 / sqrt 3) (1 / sqrt 3) (1 / sqrt 3) in
  init (Some ip) = Returns fresh /\
  twist twist_type a p (Complex ip pos1) = twist twist_type a p (Complex ip pos2) /\
  fst (ray_dutt_twist a p (run_ops ops fresh)) = fst (ray_dutt_twist a p fresh) /\
  fst (bailar_twist a p (run_ops ops fresh)) = fst (bailar_twist a p fresh) /\
  fst (ray_dutt_twist a 1 (run_ops ops fresh)) =
    Returns (FloatArray (map (rotate (deg2rad a) k) (as_float ip))).
Proof.
  intros fresh k.
  assert (Hwf : well_formed ip (run_ops ops fresh)).
  { apply run_ops_well_formed. split; reflexivity. }
  destruct Hwf as [Hi _].
  destruct (run_ops ops fresh) as [ip' pos']; simpl in Hi; subst ip'.
  split; [reflexivity|]. split; [apply twist_irrelevant|].
  split; [|split].
  - unfold fresh. rewrite (ray_dutt_twist_irrelevant a p ip pos' (copy ip)).
    reflexivity.
  - reflexivity.
  - rewrite ray_dutt_twist_eq; simpl.
    replace (a * 1) with a by ring.
    unfold k. rewrite <- c3_axis_components. reflexivity.
Qed.

(** ** Construction and the stored vertex sets *)

(** C6, as the constructor behaves: it accepts a vertex set of any length and
    never fails; the supplied set, or the six default points when none is
    supplied, becomes both the initial and the current positions. *)
Theorem init_accepts_any_length (arg : option ndarray) :
  exists self,
    init arg = Returns self /\
    initial_positions self = get arg default_positions /\
    positions self = get arg default_positions /\
    len default_positions = 6%nat.
Proof.
  destruct arg as [a|]; eexists; repeat split; reflexivity.
Qed.

(** C6 fails on a vertex set of five points: construction returns a complex
    of five vertices, no error. *)
Lemma init_five_points_succeeds :
  len five_points = 5%nat /\
  init (Some five_points) = Returns (Complex five_points five_points) /\
  forall e, init (Some five_points) <> Raises e.
Proof.
  split; [reflexivity|]. split; [reflexivity|].
  intros e H. discriminate H.
Qed.

(** C9, as the code has it: whatever operations are called on a complex after
    its construction, its initial vertex set stays the one stored by the
    constructor, and the current vertex set keeps as many entries as the
    initial one: six for the default complex and for one built from six
    points. *)
Theorem initial_never_modified (arg : option ndarray) (ops : list op) :
  exists self,
    init arg = Returns self /\
    initial_positions (run_ops ops self) = initial_positions self /\
    len (positions (run_ops ops self)) = len (initial_positions self) /\
    match arg with
    | None => len (positions (run_ops ops self)) = 6%nat
    | Some a => len (positions (run_ops ops self)) = len a
    end.
Proof.
  set (ip := get arg default_positions).
  exists (Complex ip (copy ip)).
  assert (Hwf : well_formed ip (run_ops ops (Complex ip (copy ip)))).
  { apply run_ops_well_formed. split; reflexivity. }
  destruct Hwf as [Hi Hl].
  split; [destruct arg; reflexivity|].
  split; [exact Hi|]. split; [exact Hl|].
  destruct arg; exact Hl.
Qed.

(** C9 fails on a complex built from one point: its current vertex set has
    one entry, before and after a twist. *)
Lemma one_point_complex_not_six :
  init (Some one_point) = Returns (Complex one_point one_point) /\
  len (positions (Complex one_point one_point)) = 1%nat /\
  len (positions (run_ops [CallRayDutt 60 1] (Complex one_point one_point))) <> 6%nat.
Proof.
  split; [reflexivity|]. split; [reflexivity|].
  unfold run_ops. cbn [fold_left run_op].
  rewrite ray_dutt_twist_eq. simpl. discriminate.
Qed.

(** ** The planes of the faces *)

Lemma six_rows {A : Type} (rows : list A) :
  (6 <= List.length rows)%nat ->
  exists p0 p1 p2 p3 p4 p5 rest, rows = p0 :: p1 :: p2 :: p3 :: p4 :: p5 :: rest.
Proof.
  intros H. do 6 (destruct rows as [|? rows]; [simpl in H; lia|]).
  repeat eexists.
Qed.

Lemma generate_planes_returns (self : OctahedralComplex) :
  (6 <= len (positions self))%nat ->
  exists planes, generate_planes self = (Returns planes, self).
Proof.
  intros H. destruct self as [ip pos]; simpl in H.
  destruct pos as [rows | rows]; simpl in H;
    destruct (six_rows rows H) as (p0 & p1 & p2 & p3 & p4 & p5 & rest & ->);
    eexists; reflexivity.
Qed.

(** C8: [generate_planes] returns eight entries; entry [i] holds the x, the y
    and the z coordinates of the three vertices that the [i]-th face triple
    indexes, in the order of the triple; the triples are the eight listed, in
    that order; the call leaves the complex as it is and its result depends
    on the vertex set it reads only. *)
Theorem generate_planes_faces (self : OctahedralComplex) :
  (6 <= len (positions self))%nat ->
  faces = [ [0; 2; 4]; [0; 2; 5]; [0; 3; 4]; [0; 3; 5];
            [1; 2; 4]; [1; 2; 5]; [1; 3; 4]; [1; 3; 5] ]%nat /\
  exists planes,
    generate_planes self = (Returns planes, self) /\
    List.length planes = 8%nat /\
    (forall i a b c, nth_error faces i = Some [a; b; c] ->
       exists pl, nth_error planes i = Some pl /\
         let v := entry (positions self) in
         map Some (plane_x pl) = [v a 0%nat; v b 0%nat; v c 0%nat] /\
         map Some (plane_y pl) = [v a 1%nat; v b 1%nat; v c 1%nat] /\
         map Some (plane_z pl) = [v a 2%nat; v b 2%nat; v c 2%nat]) /\
    (forall other, positions other = positions self ->
       fst (generate_planes other) = Returns planes).
Proof.
  intros H. split; [reflexivity|].
  destruct self as [ip pos]; simpl in H.
  destruct pos as [rows | rows]; simpl in H;
    destruct (six_rows rows H) as (p0 & p1 & p2 & p3 & p4 & p5 & rest & ->);
    (eexists; split; [reflexivity|]; split; [reflexivity|]; split;
     [ intros i a b c Hf;
       do 8 (destruct i as [|i];
             [injection Hf as <- <- <-; eexists; split; [reflexivity|];
              repeat split; reflexivity|]);
       destruct i; discriminate Hf
     | intros [ip' pos'] E; simpl in E; subst pos'; reflexivity ]).
Qed.

Lemma generate_planes_faces_witness :
  (6 <= len (positions default_complex))%nat /\
  faces = [ [0; 2; 4]; [0; 2; 5]; [0; 3; 4]; [0; 3; 5];
            [1; 2; 4]; [1; 2; 5]; [1; 3; 4]; [1; 3; 5] ]%nat /\
  exists planes,
    generate_planes default_complex = (Returns planes, default_complex) /\
    List.length planes = 8%nat /\
    (forall i a b c, nth_error faces i = Some [a; b; c] ->
       exists pl, nth_error planes i = Some pl /\
         let v := entry (positions default_complex) in
         map Some (plane_x pl) = [v a 0%nat; v b 0%nat; v c 0%nat] /\
         map Some (plane_y pl) = [v a 1%nat; v b 1%nat; v c 1%nat] /\
         map Some (plane_z pl) = [v a 2%nat; v b 2%nat; v c 2%nat]) /\
    (forall other, positions other = positions default_complex ->
       fst (generate_planes other) = Returns planes).
Proof.
  split; [simpl; lia|].
  apply (generate_planes_faces default_complex).
  simpl; lia.
Defined.

(** ** The animation sequence *)

Lemma nth_error_seq_lt (j : nat) :
  forall s k, (j < k)%nat -> nth_error (seq s k) j = Some (s + j)%nat.
Proof.
  induction j as [|j IH]; intros s k H; destruct k as [|k]; try lia; simpl.
  - f_equal. lia.
  - rewrite IH by lia. f_equal. lia.
Qed.

Lemma range_length (n : Z) : List.length (range n) = Z.to_nat n.
Proof. unfold range. rewrite length_map. apply length_seq. Qed.

Lemma nth_error_range (n i : Z) :
  (0 <= i < n)%Z -> nth_error (range n) (Z.to_nat i) = Some i.
Proof.
  intros H. unfold range. rewrite nth_error_map, nth_error_seq_lt by lia.
  simpl. f_equal. lia.
Qed.

Lemma Forall2_nth_error {A B : Type} (P : A -> B -> Prop) (l1 : list A) (l2 : list B) :
  Forall2 P l1 l2 ->
  forall k x, nth_error l1 k = Some x ->
    exists y, nth_error l2 k = Some y /\ P x y.
Proof.
  induction 1 as [|x0 y0 l1 l2 H0 H IH]; intros k x Hk.
  - destruct k; discriminate Hk.
  - destruct k as [|k]; simpl in Hk.
    + injection Hk as <-. exists y0. split; [reflexivity | exact H0].
    + apply IH. exact Hk.
Qed.

Lemma twist_returns (twist_type : string) (a p : R) (self : OctahedralComplex) :
  (6 <= len (initial_positions self))%nat ->
  exists pos self',
    twist twist_type a p self = (Returns pos, self') /\
    well_formed (initial_positions self) self'.
Proof.
  intros H. unfold twist. destruct (String.eqb twist_type "ray_dutt").
  - pose proof (ray_dutt_twist_state a p self) as Hs.
    rewrite ray_dutt_twist_eq in *. do 2 eexists. split; [reflexivity | exact Hs].
  - pose proof (bailar_twist_state a p self) as Hs.
    destruct self as [ip pos]; simpl in H.
    destruct ip as [rows | rows]; simpl in H;
      destruct (six_rows rows H) as (p0 & p1 & p2 & p3 & p4 & p5 & rest & ->).
    + rewrite bailar_twist_int in *. do 2 eexists.
      split; [reflexivity | exact Hs].
    + rewrite bailar_twist_float in *. do 2 eexists.
      split; [reflexivity | exact Hs].
Qed.

Lemma frame_of_progression_irrelevant (twist_type : string) (a p : R)
  (s1 s2 : OctahedralComplex) (f : Frame) :
  initial_positions s1 = initial_positions s2 ->
  frame_of_progression twist_type a p s1 f ->
  frame_of_progression twist_type a p s2 f.
Proof.
  intros E (pos & self' & Ht & Hf). exists pos, self'. split; [|exact Hf].
  destruct s1 as [ip1 pos1], s2 as [ip2 pos2]; simpl in E; subst ip2.
  rewrite (twist_irrelevant twist_type a p ip1 pos2 pos1). exact Ht.
Qed.

Lemma frame_at_returns (twist_type : string) (a : R) (n i : Z)
  (self : OctahedralComplex) :
  n <> 0%Z ->
  (6 <= len (initial_positions self))%nat ->
  exists f self',
    frame_at twist_type a n i self = (Returns f, self') /\
    initial_positions self' = initial_positions self /\
    frame_of_progression twist_type a (IZR i / IZR n) self f.
Proof.
  intros Hn H6.
  destruct (twist_returns twist_type a (IZR i / IZR n) self H6)
    as (pos & self' & Ht & Hi & Hl).
  destruct (generate_planes_returns self') as [planes Hp].
  { rewrite Hl. exact H6. }
  exists (MkFrame (tolist pos) edges planes), self'.
  split; [|split].
  - unfold frame_at, bind, lift, truediv.
    apply Z.eqb_neq in Hn. rewrite Hn.
    fold (twist twist_type a (IZR i / IZR n)). unfold twist in Ht |- *.
    destruct (String.eqb twist_type "ray_dutt"); rewrite Ht, Hp; reflexivity.
  - exact Hi.
  - exists pos, self'. split; [exact Ht|]. simpl.
    rewrite Hp. repeat split; reflexivity.
Qed.

Lemma frames_loop_returns (twist_type : string) (a : R) (n : Z)
  (origin : OctahedralComplex) :
  n <> 0%Z ->
  (6 <= len (initial_positions origin))%nat ->
  forall indices frames self,
    initial_positions self = initial_positions origin ->
    exists fs self',
      frames_loop twist_type a n indices frames self =
        (Returns (frames ++ fs), self') /\
      Forall2 (fun i f => frame_of_progression twist_type a (IZR i / IZR n) origin f)
              indices fs.
Proof.
  intros Hn H6. induction indices as [|i rest IH]; intros frames self Hi.
  - exists [], self. rewrite app_nil_r. split; [reflexivity | constructor].
  - destruct (frame_at_returns twist_type a n i self Hn) as (f & s1 & Hf & Hi1 & Hfp).
    { rewrite Hi. exact H6. }
    destruct (IH (frames ++ [f]) s1) as (fs & s2 & Hl & Hall).
    { rewrite Hi1. exact Hi. }
    exists (f :: fs), s2. split.
    + simpl. unfold bind. rewrite Hf, Hl, <- app_assoc. reflexivity.
    + constructor; [|exact Hall].
      apply (frame_of_progression_irrelevant _ _ _ self); assumption.
Qed.

Lemma values_tolist (a : ndarray) : values (tolist a) = map coords (as_float a).
Proof.
  destruct a as [rows | rows]; unfold values; simpl; rewrite !map_map;
    apply map_ext; intros [x y z]; reflexivity.
Qed.

Lemma twist_zero (twist_type : string) (a : R) (self : OctahedralComplex) :
  (6 <= len (initial_positions self))%nat ->
  exists pos self',
    twist twist_type a 0 self = (Returns pos, self') /\
    as_float pos = as_float (initial_positions self).
Proof.
  intros H. unfold twist. destruct (String.eqb twist_type "ray_dutt").
  - apply ray_dutt_twist_zero.
  - apply bailar_twist_zero. exact H.
Qed.

(** C5: for either twist kind, every angle and every frame count [n >= 1],
    the sequence has [n + 1] frames; frame [i] is the frame of progression
    [i / n] for [i] from 0 to [n]; the first is the frame of progression 0 and
    shows the initial geometry, the last is the frame of progression 1. *)
Theorem animate_twist_frames (twist_type : string) (a : R) (n : Z)
  (self : OctahedralComplex) :
  (1 <= n)%Z ->
  (6 <= len (initial_positions self))%nat ->
  exists frames self',
    animate_twist (Request (Some twist_type) (Some a) (Some n)) self =
      (Returns frames, self') /\
    Z.of_nat (List.length frames) = (n + 1)%Z /\
    (forall i, (0 <= i <= n)%Z ->
       exists f, nth_error frames (Z.to_nat i) = Some f /\
                 frame_of_progression twist_type a (IZR i / IZR n) self f) /\
    (exists f, nth_error frames 0 = Some f /\
               frame_of_progression twist_type a 0 self f /\
               values (frame_positions f) =
                 map coords (as_float (initial_positions self))) /\
    (exists f, nth_error frames (Z.to_nat n) = Some f /\
               frame_of_progression twist_type a 1 self f).
Proof.
  intros Hn H6.
  assert (Hn0 : n <> 0%Z) by lia.
  destruct (frames_loop_returns twist_type a n self Hn0 H6
              (range (n + 1)) [] self eq_refl) as (fs & self' & Hl & Hall).
  simpl in Hl.
  assert (Hnth : forall i, (0 <= i <= n)%Z ->
            exists f, nth_error fs (Z.to_nat i) = Some f /\
                      frame_of_progression twist_type a (IZR i / IZR n) self f).
  { intros i Hi.
    apply (Forall2_nth_error _ _ _ Hall (Z.to_nat i) i).
    apply nth_error_range. lia. }
  exists fs, self'. split; [exact Hl|]. split; [|split; [exact Hnth|split]].
  - rewrite <- (Forall2_length Hall), range_length. lia.
  - destruct (Hnth 0%Z) as (f & Hf & Hfp); [lia|].
    replace (0 / IZR n) with 0 in Hfp by (unfold Rdiv; ring).
    exists f. split; [exact Hf|]. split; [exact Hfp|].
    destruct Hfp as (pos & s1 & Ht & Hpos & _).
    destruct (twist_zero twist_type a self H6) as (pos0 & s0 & Ht0 & Hv).
    rewrite Ht in Ht0. injection Ht0 as <- <-.
    rewrite Hpos, values_tolist, Hv. reflexivity.
  - destruct (Hnth n) as (f & Hf & Hfp); [lia|].
    replace (IZR n / IZR n) with 1 in Hfp.
    + exists f. split; assumption.
    + field. apply not_0_IZR. exact Hn0.
Qed.

Lemma animate_twist_frames_witness :
  (1 <= 2)%Z /\
  (6 <= len (initial_positions default_complex))%nat /\
  exists frames self',
    animate_twist (Request (Some "ray_dutt"%string) (Some 60) (Some 2%Z))
                  default_complex =
      (Returns frames, self') /\
    Z.of_nat (List.length frames) = (2 + 1)%Z /\
    (forall i, (0 <= i <= 2)%Z ->
       exists f, nth_error frames (Z.to_nat i) = Some f /\
                 frame_of_progression "ray_dutt" 60 (IZR i / IZR 2)
                   default_complex f) /\
    (exists f, nth_error frames 0 = Some f /\
               frame_of_progression "ray_dutt" 60 0 default_complex f /\
               values (frame_positions f) =
                 map coords (as_float (initial_positions default_complex))) /\
    (exists f, nth_error frames (Z.to_nat 2) = Some f /\
               frame_of_progression "ray_dutt" 60 1 default_complex f).
Proof.
  split; [lia|]. split; [simpl; lia|].
  apply (animate_twist_frames "ray_dutt" 60 2 default_complex);
    [lia | simpl; lia].
Defined.

(** C7, as the handler behaves when the frame count is below 1: at 0 the
    first progression divides by zero and the handler raises
    [ZeroDivisionError]; below 0 the loop has no iteration and the handler
    returns the empty sequence.  The complex is left as it was. *)
Theorem animate_twist_below_one (req : request) (n : Z) (self : OctahedralComplex) :
  req_frames req = Some n ->
  (n < 1)%Z ->
  (n = 0%Z /\ animate_twist req self = (Raises ZeroDivisionError, self)) \/
  ((n < 0)%Z /\ animate_twist req self = (Returns [], self)).
Proof.
  intros Hreq Hn. unfold animate_twist. rewrite Hreq. simpl get.
  destruct (Z.eq_dec n 0) as [-> | Hnz].
  - left. split; reflexivity.
  - right. split; [lia|].
    unfold range. replace (Z.to_nat (n + 1)) with 0%nat by lia.
    reflexivity.
Qed.

Lemma animate_twist_below_one_witness :
  req_frames (Request (Some "bailar"%string) (Some 60) (Some (-3)%Z)) = Some (-3)%Z /\
  (-3 < 1)%Z /\
  ((-3 = 0)%Z /\
   animate_twist (Request (Some "bailar"%string) (Some 60) (Some (-3)%Z))
     default_complex = (Raises ZeroDivisionError, default_complex) \/
   (-3 < 0)%Z /\
   animate_twist (Request (Some "bailar"%string) (Some 60) (Some (-3)%Z))
     default_complex = (Returns [], default_complex)).
Proof.
  split; [reflexivity|]. split; [lia|].
  apply (animate_twist_below_one
           (Request (Some "bailar"%string) (Some 60) (Some (-3)%Z)) (-3)
           default_complex); [reflexivity | lia].
Defined.

(** C7 fails at frame count -1, where the handler returns the empty sequence
    and raises nothing, and at frame count 0, where what it raises is the
    division error. *)
Lemma animate_twist_no_invalid_input_error :
  (-1 < 1)%Z /\
  animate_twist (Request (Some "ray_dutt"%string) (Some 60) (Some (-1)%Z))
    default_complex = (Returns [], default_complex) /\
  (0 < 1)%Z /\
  animate_twist (Request (Some "ray_dutt"%string) (Some 60) (Some 0%Z))
    default_complex = (Raises ZeroDivisionError, default_complex).
Proof. repeat split; lia. Qed.

(** * Further properties of the code *)

(** ** Algebra of the axis-angle rotation *)

Lemma rotate_dot (theta : R) (k u v : Point3) :
  unit_axis k -> dot (rotate theta k u) (rotate theta k v) = dot u v.
Proof.
  intros Hk. unfold unit_axis in Hk. unfold rotate, cross, dot in *.
  destruct k as [kx ky kz], u as [ux uy uz], v as [vx vy vz]; simpl in *.
  pose proof (sin2_cos2 theta) as Hsc. unfold Rsqr in Hsc.
  set (s := sin theta) in *. set (c := cos theta) in *.
  nsatz.
Qed.

Lemma rotate_inverse (theta : R) (k p : Point3) :
  unit_axis k -> rotate (- theta) k (rotate theta k p) = p.
Proof.
  intros Hk. unfold unit_axis in Hk. unfold rotate, cross, dot in *.
  rewrite cos_neg, sin_neg.
  destruct k as [kx ky kz], p as [px py pz]; simpl in *.
  pose proof (sin2_cos2 theta) as Hsc. unfold Rsqr in Hsc.
  set (s := sin theta) in *. set (c := cos theta) in *.
  apply row_eq; nsatz.
Qed.

Lemma rotate_axis_point (theta t : R) (k : Point3) :
  unit_axis k -> rotate theta k (scale t k) = scale t k.
Proof.
  intros Hk. unfold unit_axis in Hk. unfold rotate, cross, dot, scale, row_map in *.
  destruct k as [kx ky kz]; simpl in *.
  set (s := sin theta) in *. set (c := cos theta) in *.
  apply row_eq; nsatz.
Qed.

Lemma rotate_period (theta : R) (k p : Point3) :
  rotate (theta + 2 * PI) k p = rotate theta k p.
Proof.
  unfold rotate. rewrite cos_plus, sin_plus, cos_2PI, sin_2PI.
  apply row_eq; ring.
Qed.

Lemma sqrt3_facts : sqrt 3 * sqrt 3 = 3 /\ sqrt 3 <> 0.
Proof.
  assert (H3 : sqrt 3 * sqrt 3 = 3) by (apply sqrt_sqrt; lra).
  split; [exact H3|]. intros E. rewrite E in H3. lra.
Qed.

Lemma c3_axis_diagonal (t : R) : scale (t * sqrt 3) c3_axis = Row t t t.
Proof.
  rewrite c3_axis_components. destruct sqrt3_facts as [_ Hn].
  unfold scale, row_map; simpl. apply row_eq; field; exact Hn.
Qed.

Lemma deg2rad_120 : deg2rad (120 * 1) = 2 * (PI / 3).
Proof. unfold deg2rad. field. Qed.

Lemma rotate_c3_120 (p : Point3) :
  rotate (deg2rad (120 * 1)) c3_axis p = cycle p.
Proof.
  rewrite deg2rad_120, c3_axis_components.
  unfold rotate, cross, dot, cycle. rewrite cos_2PI3, sin_2PI3.
  destruct sqrt3_facts as [H3 Hn].
  destruct p as [x y z]; simpl.
  set (r := sqrt 3) in *.
  apply row_eq; field_simplify_eq; try exact Hn;
    clear Hn; clearbody r;
    replace (r ^ 2) with 3 by (rewrite <- H3; ring); ring.
Qed.

Lemma deg2rad_plus_360 (a : R) : deg2rad ((a + 360) * 1) = deg2rad (a * 1) + 2 * PI.
Proof. unfold deg2rad. field. Qed.

Lemma deg2rad_opp (a p : R) : deg2rad (- a * p) = - deg2rad (a * p).
Proof. unfold deg2rad. ring. Qed.

(** ** The Ray-Dutt twist as a motion *)

(** The Ray-Dutt twist moves all vertices by one map that keeps every dot
    product, hence every length, distance and angle between vertices: the
    body turns and does not deform. *)
Theorem ray_dutt_twist_rigid (self : OctahedralComplex) (a p : R) :
  exists f : Point3 -> Point3,
    fst (ray_dutt_twist a p self) =
      Returns (FloatArray (map f (as_float (initial_positions self)))) /\
    (forall u v, dot (f u) (f v) = dot u v) /\
    (forall u, norm (f u) = norm u).
Proof.
  exists (rotate (deg2rad (a * p)) c3_axis).
  split; [rewrite ray_dutt_twist_eq; reflexivity|].
  assert (Hd : forall u v,
             dot (rotate (deg2rad (a * p)) c3_axis u)
                 (rotate (deg2rad (a * p)) c3_axis v) = dot u v).
  { intros u v. apply rotate_dot. apply unit_c3_axis. }
  split; [exact Hd|].
  intros u. unfold norm. f_equal. exact (Hd u u).
Qed.

(** A vertex on the body diagonal x = y = z is left where it is by the
    Ray-Dutt twist, for every angle and progression; other vertices are
    moved by the same map. *)
Theorem ray_dutt_twist_fixes_diagonal (a p t : R) (before after : list Point3)
  (pos : ndarray) :
  exists out,
    fst (ray_dutt_twist a p
           (Complex (FloatArray (before ++ Row t t t :: after)) pos)) =
      Returns (FloatArray out) /\
    nth_error out (List.length before) = Some (Row t t t).
Proof.
  rewrite ray_dutt_twist_eq. eexists. split; [reflexivity|].
  simpl. rewrite map_app. simpl.
  rewrite nth_error_app2 by (rewrite length_map; lia).
  rewrite length_map, Nat.sub_diag. simpl.
  rewrite <- (c3_axis_diagonal t).
  rewrite (rotate_axis_point _ _ _ unit_c3_axis). reflexivity.
Qed.

(** At 120 degrees and progression 1 the Ray-Dutt twist sends every vertex
    (x, y, z) to (z, x, y): the three-fold axis of the axis-aligned octahedron,
    whose vertex set it maps onto itself. *)
Theorem ray_dutt_twist_120_cycles (self : OctahedralComplex) :
  fst (ray_dutt_twist 120 1 self) =
    Returns (FloatArray (map cycle (as_float (initial_positions self)))).
Proof.
  rewrite ray_dutt_twist_eq. simpl. do 2 f_equal.
  apply map_ext. intros p. apply rotate_c3_120.
Qed.

(** Running the Ray-Dutt twist with the opposite angle on a complex built
    from the twisted positions gives back the values of the original
    vertex set. *)
Theorem ray_dutt_twist_round_trip (self : OctahedralComplex) (a p : R) :
  exists out back,
    fst (ray_dutt_twist a p self) = Returns out /\
    init (Some out) = Returns back /\
    fst (ray_dutt_twist (- a) p back) =
      Returns (FloatArray (as_float (initial_positions self))).
Proof.
  do 2 eexists. split; [rewrite ray_dutt_twist_eq; reflexivity|].
  split; [reflexivity|].
  rewrite ray_dutt_twist_eq. simpl. rewrite deg2rad_opp.
  rewrite map_map. do 2 f_equal.
  rewrite <- (map_id (as_float (initial_positions self))) at 2.
  apply map_ext. intros q. apply rotate_inverse. apply unit_c3_axis.
Qed.

Lemma rotate_period_neg (theta : R) (k p : Point3) :
  rotate (- (theta + 2 * PI)) k p = rotate (- theta) k p.
Proof.
  unfold rotate. rewrite !cos_neg, !sin_neg, cos_plus, sin_plus, cos_2PI, sin_2PI.
  apply row_eq; ring.
Qed.

Ltac bailar_cases self :=
  let ip := fresh "ip" in
  let pos := fresh "pos" in
  let rows := fresh "rows" in
  destruct self as [ip pos]; destruct ip as [rows | rows];
  do 6 (try destruct rows as [|? rows]);
  unfold bailar_twist, bind, lift, get_initial_positions, set_positions,
    get_positions, copy, apply;
  simpl; fold z_axis;
  rewrite ?(apply1_from_rotvec _ _ _ unit_z_axis).

(** Adding a full turn of 360 degrees to the angle changes nothing in what
    a twist returns at progression 1, nor in the complex it leaves: for either
    twist on a float vertex set of any length, and for the Ray-Dutt twist,
    whose result is a float array, on every vertex set. *)
Theorem twist_angle_periodic_on_floats (twist_type : string) (a : R)
  (rows : list Point3) (pos : ndarray) (self : OctahedralComplex) :
  twist twist_type (a + 360) 1 (Complex (FloatArray rows) pos) =
    twist twist_type a 1 (Complex (FloatArray rows) pos) /\
  ray_dutt_twist (a + 360) 1 self = ray_dutt_twist a 1 self.
Proof.
  assert (Hray : forall c, ray_dutt_twist (a + 360) 1 c = ray_dutt_twist a 1 c).
  { intros c. rewrite !ray_dutt_twist_eq. simpl. rewrite deg2rad_plus_360.
    rewrite (map_ext _ _ (rotate_period (deg2rad (a * 1)) c3_axis)).
    reflexivity. }
  split; [|apply Hray].
  unfold twist. destruct (String.eqb twist_type "ray_dutt"); [apply Hray|].
  do 6 (try destruct rows as [|? rows]);
    unfold bailar_twist, bind, lift, get_initial_positions, set_positions,
      get_positions, copy, apply;
    simpl; fold z_axis;
    rewrite ?(apply1_from_rotvec _ _ _ unit_z_axis);
    rewrite ?deg2rad_plus_360, ?rotate_period, ?rotate_period_neg;
    reflexivity.
Qed.

(** ** The Bailar twist as a motion *)

Lemma rotate_z_height (theta : R) (p : Point3) : c2 (rotate theta z_axis p) = c2 p.
Proof. rewrite rotate_z. reflexivity. Qed.

Lemma rotate_z_radial2 (theta : R) (p : Point3) :
  radial2 (rotate theta z_axis p) = radial2 p.
Proof.
  rewrite rotate_z. unfold radial2; simpl.
  pose proof (sin2_cos2 theta) as Hsc. unfold Rsqr in Hsc.
  destruct p as [x y z]; simpl.
  set (s := sin theta) in *. set (c := cos theta) in *. nsatz.
Qed.

Lemma norm_radial2 (p : Point3) : norm p = sqrt (radial2 p + c2 p * c2 p).
Proof. reflexivity. Qed.

Lemma rotate_z_same (theta : R) (p : Point3) :
  same_height_and_radius p (rotate theta z_axis p).
Proof.
  unfold same_height_and_radius.
  rewrite norm_radial2, rotate_z_height, rotate_z_radial2.
  repeat split; reflexivity.
Qed.

Lemma same_height_and_radius_refl (l : list Point3) :
  Forall2 same_height_and_radius l l.
Proof.
  induction l as [|p l IH]; constructor; [|exact IH].
  repeat split; reflexivity.
Qed.

(** On a float vertex set the Bailar twist keeps, for each of the six
    vertices, its z coordinate, its distance from the z axis and so its
    distance from the centre: each vertex moves on its own circle about the
    z axis.  Rows past the sixth are returned as they are. *)
Theorem bailar_twist_keeps_height_and_radius (a p : R)
  (p0 p1 p2 p3 p4 p5 : Point3) (rest : list Point3) (pos : ndarray) :
  exists q0 q1 q2 q3 q4 q5,
    fst (bailar_twist a p
           (Complex (FloatArray (p0 :: p1 :: p2 :: p3 :: p4 :: p5 :: rest)) pos)) =
      Returns (FloatArray (q0 :: q1 :: q2 :: q3 :: q4 :: q5 :: rest)) /\
    Forall2 same_height_and_radius
            [p0; p1; p2; p3; p4; p5] [q0; q1; q2; q3; q4; q5].
Proof.
  rewrite bailar_twist_float. do 6 eexists. split; [reflexivity|].
  unfold top_rot, bottom_rot.
  repeat (constructor; [apply rotate_z_same|]).
  constructor.
Qed.

(** Running the Bailar twist with the opposite angle on a complex built from
    the twisted float positions gives back the original vertex set. *)
Theorem bailar_twist_round_trip (a p : R)
  (p0 p1 p2 p3 p4 p5 : Point3) (rest : list Point3) (pos : ndarray) :
  let original := FloatArray (p0 :: p1 :: p2 :: p3 :: p4 :: p5 :: rest) in
  exists out back,
    fst (bailar_twist a p (Complex original pos)) = Returns out /\
    init (Some out) = Returns back /\
    fst (bailar_twist (- a) p back) = Returns original.
Proof.
  intros original. unfold original.
  do 2 eexists. split; [rewrite bailar_twist_float; reflexivity|].
  split; [reflexivity|].
  unfold copy. rewrite bailar_twist_float. unfold top_rot, bottom_rot.
  rewrite deg2rad_opp.
  rewrite !(rotate_inverse _ _ _ unit_z_axis).
  reflexivity.
Qed.

Lemma deg2rad_180 : deg2rad (180 * 1) = PI.
Proof. unfold deg2rad. field. Qed.

Lemma rotate_z_PI (p : Point3) : rotate PI z_axis p = half_turn p.
Proof.
  rewrite rotate_z, cos_PI, sin_PI. unfold half_turn. apply row_eq; ring.
Qed.

Lemma rotate_z_neg_PI (p : Point3) : rotate (- PI) z_axis p = half_turn p.
Proof.
  rewrite rotate_z, cos_neg, sin_neg, cos_PI, sin_PI. unfold half_turn.
  apply row_eq; ring.
Qed.

(** At 180 degrees and progression 1 the two counter-rotations of the Bailar
    twist coincide: on a float vertex set each of the six vertices (x, y, z)
    goes to (-x, -y, z), a half turn of the whole body about the z axis. *)
Theorem bailar_twist_180_is_half_turn
  (p0 p1 p2 p3 p4 p5 : Point3) (rest : list Point3) (pos : ndarray) :
  fst (bailar_twist 180 1
         (Complex (FloatArray (p0 :: p1 :: p2 :: p3 :: p4 :: p5 :: rest)) pos)) =
    Returns (FloatArray (map half_turn [p0; p1; p2; p3; p4; p5] ++ rest)).
Proof.
  rewrite bailar_twist_float. unfold top_rot, bottom_rot.
  rewrite deg2rad_180, !rotate_z_PI, !rotate_z_neg_PI. reflexivity.
Qed.

(** ** Integer vertex sets in the Bailar twist *)

Lemma map_trunc_IZR (rows : list (row Z)) :
  map (row_map trunc) (map (row_map IZR) rows) = rows.
Proof.
  induction rows as [|r rows IH]; simpl; [reflexivity|].
  rewrite row_map_trunc_IZR, IH. reflexivity.
Qed.

(** On an integer vertex set the Bailar twist returns an integer array: the
    entries of what it returns on the same values held as floats, each cut
    toward zero. *)
Theorem bailar_twist_int_is_truncated_float (a p : R)
  (p0 p1 p2 p3 p4 p5 : row Z) (rest : list (row Z)) (pos pos' : ndarray) :
  let rows := p0 :: p1 :: p2 :: p3 :: p4 :: p5 :: rest in
  exists out,
    fst (bailar_twist a p (Complex (FloatArray (map (row_map IZR) rows)) pos)) =
      Returns (FloatArray out) /\
    fst (bailar_twist a p (Complex (IntArray rows) pos')) =
      Returns (IntArray (map (row_map trunc) out)).
Proof.
  intros rows. unfold rows. cbn [map].
  rewrite bailar_twist_float, bailar_twist_int.
  eexists. split; [reflexivity|].
  cbn [fst map]. rewrite map_trunc_IZR. reflexivity.
Qed.

Lemma sin_cos_first_quadrant (t : R) :
  0 < t < PI / 2 -> 0 < sin t < 1 /\ 0 < cos t < 1.
Proof.
  intros [H0 H1]. pose proof PI_RGT_0 as Hpi.
  assert (Hs : 0 < sin t) by (apply sin_gt_0; lra).
  assert (Hc : 0 < cos t) by (apply cos_gt_0; lra).
  pose proof (sin2_cos2 t) as Hsc. unfold Rsqr in Hsc.
  split; split; try assumption; nra.
Qed.

Lemma deg2rad_first_quadrant (x : R) :
  0 < x < 90 -> 0 < deg2rad x < PI / 2.
Proof.
  intros [H0 H1]. pose proof PI_RGT_0 as Hpi. unfold deg2rad. split; nra.
Qed.

(** On the default complex, for every effective angle from 1 to 89 degrees,
    the Bailar twist returns the four vertices of the xy plane on the origin:
    their rotated x and y lie strictly between -1 and 1, away from both, and
    are cut to 0 when stored into the integer array. *)
Theorem bailar_twist_default_equator_collapses (a p : R) (pos : ndarray) :
  1 <= a * p <= 89 ->
  exists out self',
    bailar_twist a p (Complex default_positions pos) =
      (Returns (IntArray out), self') /\
    List.length out = 6%nat /\
    firstn 4 out = [Row 0 0 0; Row 0 0 0; Row 0 0 0; Row 0 0 0]%Z.
Proof.
  intros Hap.
  assert (Hq : 0 < a * p < 90) by lra.
  destruct (sin_cos_first_quadrant _ (deg2rad_first_quadrant _ Hq))
    as [[Hs0 Hs1] [Hc0 Hc1]].
  unfold default_positions. rewrite bailar_twist_int. cbv zeta beta.
  do 2 eexists. split; [reflexivity|]. split; [reflexivity|].
  cbn [firstn]. unfold top_rot, bottom_rot.
  rewrite !rotate_z, cos_neg, sin_neg.
  unfold row_map; simpl.
  repeat f_equal; try (apply trunc_small; lra);
    match goal with
    | |- trunc ?r = ?z => replace r with (IZR z) by (simpl; lra); apply trunc_IZR
    end.
Qed.

Lemma bailar_twist_default_equator_collapses_witness :
  1 <= 30 * (1 / 2) <= 89 /\
  exists out self',
    bailar_twist 30 (1 / 2) (Complex default_positions default_positions) =
      (Returns (IntArray out), self') /\
    List.length out = 6%nat /\
    firstn 4 out = [Row 0 0 0; Row 0 0 0; Row 0 0 0; Row 0 0 0]%Z.
Proof.
  split; [lra|].
  apply (bailar_twist_default_equator_collapses 30 (1 / 2) default_positions).
  lra.
Defined.

(** ** Vertex sets of fewer than six points *)

Lemma bailar_twist_short (a p : R) (self : OctahedralComplex) :
  (len (initial_positions self) < 6)%nat ->
  fst (bailar_twist a p self) = Raises IndexError.
Proof.
  intros H. bailar_cases self; simpl in H; try lia; reflexivity.
Qed.

(** On a vertex set of fewer than six points the Bailar twist raises
    [IndexError] and never changes the initial set.  With at most four points
    it raises on reading the first group, and the current positions are left
    reset to the initial ones; with five it raises on reading the second
    group, after the rotated first group was stored. *)
Theorem bailar_twist_short_raises (a p : R) (self : OctahedralComplex) :
  (len (initial_positions self) < 6)%nat ->
  fst (bailar_twist a p self) = Raises IndexError /\
  initial_positions (snd (bailar_twist a p self)) = initial_positions self /\
  ((len (initial_positions self) <= 4)%nat ->
     positions (snd (bailar_twist a p self)) = initial_positions self) /\
  ((len (initial_positions self) = 5)%nat ->
     exists top,
       getitem (initial_positions self) [0; 2; 4]%nat = Returns top /\
       setitem (initial_positions self) [0; 2; 4]%nat
               (map (top_rot a p) (as_float top)) =
         Returns (positions (snd (bailar_twist a p self)))).
Proof.
  intros H. split; [apply bailar_twist_short; exact H|].
  split; [apply bailar_twist_state|].
  bailar_cases self; simpl in H; try lia;
    (split; [intros Hl; simpl in Hl; try lia; reflexivity|]);
    intros Hl; simpl in Hl; try lia;
    eexists; (split; [reflexivity|]); reflexivity.
Qed.

Lemma bailar_twist_short_raises_witness :
  (len (initial_positions (Complex five_points five_points)) < 6)%nat /\
  fst (bailar_twist 60 1 (Complex five_points five_points)) = Raises IndexError /\
  initial_positions (snd (bailar_twist 60 1 (Complex five_points five_points))) =
    initial_positions (Complex five_points five_points) /\
  ((len (initial_positions (Complex five_points five_points)) <= 4)%nat ->
     positions (snd (bailar_twist 60 1 (Complex five_points five_points))) =
       initial_positions (Complex five_points five_points)) /\
  ((len (initial_positions (Complex five_points five_points)) = 5)%nat ->
     exists top,
       getitem (initial_positions (Complex five_points five_points))
               [0; 2; 4]%nat = Returns top /\
       setitem (initial_positions (Complex five_points five_points))
               [0; 2; 4]%nat (map (top_rot 60 1) (as_float top)) =
         Returns (positions
                    (snd (bailar_twist 60 1 (Complex five_points five_points))))).
Proof.
  split; [simpl; lia|].
  apply (bailar_twist_short_raises 60 1 (Complex five_points five_points)).
  simpl; lia.
Defined.

Lemma generate_planes_short (self : OctahedralComplex) :
  (len (positions self) < 6)%nat ->
  generate_planes self = (Raises IndexError, self).
Proof.
  intros H. destruct self as [ip pos]. simpl in H.
  destruct pos as [rows | rows];
    do 6 (try destruct rows as [|? rows]); simpl in H; try lia; reflexivity.
Qed.

(** When the current vertex set has fewer than six points, [generate_planes]
    raises [IndexError] and [initial_data] with it; the complex is left as it
    was. *)
Theorem generate_planes_short_raises (self : OctahedralComplex) :
  (len (positions self) < 6)%nat ->
  generate_planes self = (Raises IndexError, self) /\
  initial_data self = (Raises IndexError, self).
Proof.
  intros H. pose proof (generate_planes_short self H) as E.
  split; [exact E|].
  unfold initial_data, bind, get_positions. rewrite E. reflexivity.
Qed.

Lemma generate_planes_short_raises_witness :
  (len (positions (Complex five_points five_points)) < 6)%nat /\
  generate_planes (Complex five_points five_points) =
    (Raises IndexError, Complex five_points five_points) /\
  initial_data (Complex five_points five_points) =
    (Raises IndexError, Complex five_points five_points).
Proof.
  split; [simpl; lia|].
  apply (generate_planes_short_raises (Complex five_points five_points)).
  simpl; lia.
Defined.

(** ** Frames of an animation *)

Lemma twist_returns_current (twist_type : string) (a p : R)
  (self : OctahedralComplex) :
  (6 <= len (initial_positions self))%nat ->
  exists pos,
    twist twist_type a p self =
      (Returns pos, Complex (initial_positions self) pos) /\
    len pos = len (initial_positions self).
Proof.
  intros H. unfold twist. destruct (String.eqb twist_type "ray_dutt").
  - rewrite ray_dutt_twist_eq. eexists. split; [reflexivity|].
    simpl. rewrite length_map. apply len_as_float.
  - destruct self as [ip pos]; simpl in H.
    destruct ip as [rows | rows]; simpl in H;
      destruct (six_rows rows H) as (p0 & p1 & p2 & p3 & p4 & p5 & rest & ->).
    + rewrite bailar_twist_int. eexists. split; reflexivity.
    + rewrite bailar_twist_float. eexists. split; reflexivity.
Qed.

Lemma tolist_rows (a : ndarray) :
  List.length (tolist a) = len a /\
  Forall (fun r => List.length r = 3%nat) (tolist a).
Proof.
  destruct a as [rows | rows]; simpl; (split; [apply length_map|]);
    apply Forall_forall; intros r Hr; apply in_map_iff in Hr;
    destruct Hr as (q & <- & _); reflexivity.
Qed.

Lemma generate_planes_entries (self : OctahedralComplex) :
  (6 <= len (positions self))%nat ->
  exists planes,
    generate_planes self = (Returns planes, self) /\
    List.length planes = 8%nat /\
    Forall (fun pl => List.length (plane_x pl) = 3%nat /\
                      List.length (plane_y pl) = 3%nat /\
                      List.length (plane_z pl) = 3%nat) planes /\
    planes_match (tolist (positions self)) planes.
Proof.
  intros H. destruct self as [ip pos]; simpl in H.
  destruct pos as [rows | rows]; simpl in H;
    destruct (six_rows rows H) as (p0 & p1 & p2 & p3 & p4 & p5 & rest & ->);
    (eexists; split; [reflexivity|]; split; [reflexivity|]; split;
     [ repeat constructor
     | intros i a b c Hf;
       do 8 (destruct i as [|i];
             [injection Hf as <- <- <-; eexists; split; [reflexivity|];
              repeat split; reflexivity|]);
       destruct i; discriminate Hf ]).
Qed.

Lemma frame_at_explicit (twist_type : string) (a : R) (n i : Z)
  (self : OctahedralComplex) :
  n <> 0%Z ->
  (6 <= len (initial_positions self))%nat ->
  exists pos planes,
    let self' := Complex (initial_positions self) pos in
    twist twist_type a (IZR i / IZR n) self = (Returns pos, self') /\
    len pos = len (initial_positions self) /\
    generate_planes self' = (Returns planes, self') /\
    frame_at twist_type a n i self =
      (Returns (MkFrame (tolist pos) edges planes), self').
Proof.
  intros Hn H6.
  destruct (twist_returns_current twist_type a (IZR i / IZR n) self H6)
    as (pos & Ht & Hl).
  destruct (generate_planes_returns (Complex (initial_positions self) pos))
    as [planes Hp].
  { simpl. rewrite Hl. exact H6. }
  exists pos, planes. cbv zeta. repeat split; try assumption.
  unfold frame_at, bind, lift, truediv.
  apply Z.eqb_neq in Hn. rewrite Hn.
  unfold twist in Ht.
  destruct (String.eqb twist_type "ray_dutt"); rewrite Ht, Hp; reflexivity.
Qed.

Lemma frame_of_progression_shape (twist_type : string) (a p : R)
  (self : OctahedralComplex) (f : Frame) :
  (6 <= len (initial_positions self))%nat ->
  frame_of_progression twist_type a p self f ->
  frame_topology (len (initial_positions self)) f /\
  planes_match (frame_positions f) (frame_planes f).
Proof.
  intros H6 (pos & self' & Ht & Hpos & He & Hpl).
  destruct (twist_returns_current twist_type a p self H6) as (pos1 & Ht1 & Hl).
  rewrite Ht in Ht1. injection Ht1 as <- ->.
  destruct (generate_planes_entries (Complex (initial_positions self) pos))
    as (planes & Hg & Hn & Hx & Hm).
  { simpl. rewrite Hl. exact H6. }
  rewrite Hg in Hpl. simpl in Hpl. injection Hpl as Epl.
  simpl in Hm. rewrite <- Hpos in Hm. rewrite Epl in Hn, Hx, Hm.
  destruct (tolist_rows pos) as [Hr1 Hr2]. rewrite <- Hpos in Hr1, Hr2.
  split; [|exact Hm].
  unfold frame_topology. rewrite He, Hr1, Hl.
  repeat split; try assumption; reflexivity.
Qed.

Lemma Forall2_Forall_r {A B : Type} (P : A -> B -> Prop) (Q : B -> Prop)
  (l1 : list A) (l2 : list B) :
  (forall x y, P x y -> Q y) -> Forall2 P l1 l2 -> Forall Q l2.
Proof.
  intros HPQ H. induction H as [|x y l1 l2 Hxy _ IH]; constructor.
  - exact (HPQ x y Hxy).
  - exact IH.
Qed.

Lemma animate_twist_returns (twist_type : string) (a : R) (n : Z)
  (self : OctahedralComplex) :
  (1 <= n)%Z ->
  (6 <= len (initial_positions self))%nat ->
  exists frames self',
    animate_twist (Request (Some twist_type) (Some a) (Some n)) self =
      (Returns frames, self') /\
    Forall2 (fun i f => frame_of_progression twist_type a (IZR i / IZR n) self f)
            (range (n + 1)) frames.
Proof.
  intros Hn H6. assert (Hn0 : n <> 0%Z) by lia.
  destruct (frames_loop_returns twist_type a n self Hn0 H6
              (range (n + 1)) [] self eq_refl) as (fs & self' & Hl & Hall).
  exists fs, self'. split; [exact Hl | exact Hall].
Qed.

(** Every frame of an animation has the same fixed part: the eleven edges of
    the handler, as many positions as the complex has vertices, each of three
    numbers, and eight planes of three x, three y and three z; only the
    coordinates differ from frame to frame. *)
Theorem animate_twist_frames_topology (twist_type : string) (a : R) (n : Z)
  (self : OctahedralComplex) :
  (1 <= n)%Z ->
  (6 <= len (initial_positions self))%nat ->
  exists frames self',
    animate_twist (Request (Some twist_type) (Some a) (Some n)) self =
      (Returns frames, self') /\
    Forall (frame_topology (len (initial_positions self))) frames.
Proof.
  intros Hn H6.
  destruct (animate_twist_returns twist_type a n self Hn H6)
    as (frames & self' & Hr & Hall).
  exists frames, self'. split; [exact Hr|].
  apply (Forall2_Forall_r _ _ _ _ (fun i f Hf =>
           proj1 (frame_of_progression_shape _ _ _ _ _ H6 Hf)) Hall).
Qed.

Lemma animate_twist_frames_topology_witness :
  (1 <= 2)%Z /\
  (6 <= len (initial_positions default_complex))%nat /\
  exists frames self',
    animate_twist (Request (Some "bailar"%string) (Some 60) (Some 2%Z))
                  default_complex = (Returns frames, self') /\
    Forall (frame_topology (len (initial_positions default_complex))) frames.
Proof.
  split; [lia|]. split; [simpl; lia|].
  apply (animate_twist_frames_topology "bailar" 60 2 default_complex);
    [lia | simpl; lia].
Defined.

(** In every frame of an animation the planes are those of the frame's own
    positions: plane [i] lists the x, the y and the z of the positions at the
    three indices of face [i], so planes and positions never come from
    different steps. *)
Theorem animate_twist_planes_match (twist_type : string) (a : R) (n : Z)
  (self : OctahedralComplex) :
  (1 <= n)%Z ->
  (6 <= len (initial_positions self))%nat ->
  exists frames self',
    animate_twist (Request (Some twist_type) (Some a) (Some n)) self =
      (Returns frames, self') /\
    Forall (fun f => planes_match (frame_positions f) (frame_planes f)) frames.
Proof.
  intros Hn H6.
  destruct (animate_twist_returns twist_type a n self Hn H6)
    as (frames & self' & Hr & Hall).
  exists frames, self'. split; [exact Hr|].
  apply (Forall2_Forall_r _ _ _ _ (fun i f Hf =>
           proj2 (frame_of_progression_shape _ _ _ _ _ H6 Hf)) Hall).
Qed.

Lemma animate_twist_planes_match_witness :
  (1 <= 2)%Z /\
  (6 <= len (initial_positions default_complex))%nat /\
  exists frames self',
    animate_twist (Request (Some "bailar"%string) (Some 60) (Some 2%Z))
                  default_complex = (Returns frames, self') /\
    Forall (fun f => planes_match (frame_positions f) (frame_planes f)) frames.
Proof.
  split; [lia|]. split; [simpl; lia|].
  apply (animate_twist_planes_match "bailar" 60 2 default_complex);
    [lia | simpl; lia].
Defined.

(** ** The complex after an animation *)

Lemma frame_at_then_initial_data (twist_type : string) (a : R) (n i : Z)
  (self : OctahedralComplex) :
  n <> 0%Z ->
  (6 <= len (initial_positions self))%nat ->
  exists f self',
    frame_at twist_type a n i self = (Returns f, self') /\
    initial_positions self' = initial_positions self /\
    initial_data self' = (Returns f, self').
Proof.
  intros Hn H6.
  destruct (frame_at_explicit twist_type a n i self Hn H6)
    as (pos & planes & _ & _ & Hp & Hf).
  do 2 eexists. split; [exact Hf|]. split; [reflexivity|].
  unfold initial_data, bind, get_positions. rewrite Hp. reflexivity.
Qed.

Lemma last_cons {A : Type} (x d : A) (l : list A) :
  l <> [] -> last (x :: l) d = last l d.
Proof. destruct l; [congruence | reflexivity]. Qed.

Lemma nth_error_last {A : Type} (l : list A) (d : A) :
  l <> [] -> nth_error l (pred (List.length l)) = Some (last l d).
Proof.
  induction l as [|x l IH]; intros H; [congruence|].
  destruct l as [|y l]; [reflexivity|].
  rewrite last_cons by discriminate.
  apply IH. discriminate.
Qed.

Lemma frames_loop_final (twist_type : string) (a : R) (n : Z) :
  n <> 0%Z ->
  forall indices frames self,
    (6 <= len (initial_positions self))%nat ->
    exists fs self',
      frames_loop twist_type a n indices frames self =
        (Returns (frames ++ fs), self') /\
      (fs = [] -> self' = self) /\
      (fs <> [] -> forall d, initial_data self' = (Returns (last fs d), self')).
Proof.
  intros Hn. induction indices as [|i rest IH]; intros frames self H6.
  - exists [], self. rewrite app_nil_r.
    split; [reflexivity|]. split; [reflexivity | congruence].
  - destruct (frame_at_then_initial_data twist_type a n i self Hn H6)
      as (f & s1 & Hf & Hi & Hd).
    destruct (IH (frames ++ [f]) s1) as (fs & s2 & Hl & Hnil & Hlast).
    { rewrite Hi. exact H6. }
    exists (f :: fs), s2. split; [|split].
    + simpl. unfold bind. rewrite Hf, Hl, <- app_assoc. reflexivity.
    + discriminate.
    + intros _ d. destruct fs as [|g fs].
      * rewrite (Hnil eq_refl). exact Hd.
      * rewrite last_cons by discriminate. apply Hlast. discriminate.
Qed.

(** After an animation the complex holds the positions of the last frame:
    a request to [initial_data] then answers with exactly that last frame,
    the fully twisted geometry, and not with the initial one. *)
Theorem initial_data_after_animation (twist_type : string) (a : R) (n : Z)
  (self : OctahedralComplex) :
  (1 <= n)%Z ->
  (6 <= len (initial_positions self))%nat ->
  exists frames self' f,
    animate_twist (Request (Some twist_type) (Some a) (Some n)) self =
      (Returns frames, self') /\
    nth_error frames (Z.to_nat n) = Some f /\
    frame_of_progression twist_type a 1 self f /\
    initial_data self' = (Returns f, self').
Proof.
  intros Hn H6. assert (Hn0 : n <> 0%Z) by lia.
  destruct (animate_twist_returns twist_type a n self Hn H6)
    as (frames & self' & Hr & Hall).
  destruct (frames_loop_final twist_type a n Hn0 (range (n + 1)) [] self H6)
    as (fs & s2 & Hl & _ & Hlast).
  unfold animate_twist in Hr. simpl in Hr, Hl. rewrite Hr in Hl.
  injection Hl as <- <-.
  assert (Hlen : List.length frames = S (Z.to_nat n)).
  { rewrite <- (Forall2_length Hall), range_length. lia. }
  assert (Hne : frames <> []).
  { intros E. rewrite E in Hlen. discriminate Hlen. }
  destruct (Forall2_nth_error _ _ _ Hall (Z.to_nat n) n) as (f & Hf & Hfp).
  { apply nth_error_range. lia. }
  exists frames, self', f. split; [exact Hr|]. split; [exact Hf|]. split.
  - replace (IZR n / IZR n) with 1 in Hfp; [exact Hfp|].
    field. apply not_0_IZR. exact Hn0.
  - pose proof (nth_error_last frames f Hne) as E.
    rewrite Hlen in E. simpl in E. rewrite Hf in E. injection E as E.
    rewrite E at 1. apply Hlast. exact Hne.
Qed.

Lemma initial_data_after_animation_witness :
  (1 <= 2)%Z /\
  (6 <= len (initial_positions default_complex))%nat /\
  exists frames self' f,
    animate_twist (Request (Some "ray_dutt"%string) (Some 60) (Some 2%Z))
                  default_complex = (Returns frames, self') /\
    nth_error frames (Z.to_nat 2) = Some f /\
    frame_of_progression "ray_dutt" 60 1 default_complex f /\
    initial_data self' = (Returns f, self').
Proof.
  split; [lia|]. split; [simpl; lia|].
  apply (initial_data_after_animation "ray_dutt" 60 2 default_complex);
    [lia | simpl; lia].
Defined.

(** ** Requests *)

Lemma frame_at_fallback (twist_type : string) (a : R) (n i : Z) :
  twist_type <> "ray_dutt"%string ->
  frame_at twist_type a n i = frame_at "bailar" a n i.
Proof.
  intros H. apply String.eqb_neq in H. unfold frame_at. rewrite H. reflexivity.
Qed.

Lemma frames_loop_fallback (twist_type : string) (a : R) (n : Z) :
  twist_type <> "ray_dutt"%string ->
  forall indices frames self,
    frames_loop twist_type a n indices frames self =
      frames_loop "bailar" a n indices frames self.
Proof.
  intros H. induction indices as [|i rest IH]; intros frames self; simpl;
    [reflexivity|].
  unfold bind. rewrite (frame_at_fallback twist_type a n i H).
  destruct (frame_at "bailar" a n i self) as [[f | e] s];
    [apply IH | reflexivity].
Qed.

(** Every twist type other than the string ray_dutt, known or not, is
    answered as bailar: the handler rejects no twist type. *)
Theorem animate_twist_fallback (twist_type : string) (angle : option R)
  (frames : option Z) (self : OctahedralComplex) :
  twist_type <> "ray_dutt"%string ->
  animate_twist (Request (Some twist_type) angle frames) self =
    animate_twist (Request (Some "bailar"%string) angle frames) self.
Proof.
  intros H. unfold animate_twist. simpl. apply frames_loop_fallback. exact H.
Qed.

Lemma animate_twist_fallback_witness :
  "bailer"%string <> "ray_dutt"%string /\
  animate_twist (Request (Some "bailer"%string) (Some 60) (Some 2%Z))
                default_complex =
    animate_twist (Request (Some "bailar"%string) (Some 60) (Some 2%Z))
                  default_complex.
Proof.
  split; [discriminate|].
  apply (animate_twist_fallback "bailer" (Some 60) (Some 2%Z) default_complex).
  discriminate.
Defined.

(** A request with none of the three keys is answered with the defaults of
    the handler: 31 frames of the Ray-Dutt twist toward 45 degrees, frame [i]
    at progression i / 30. *)
Theorem animate_twist_defaults (self : OctahedralComplex) :
  (6 <= len (initial_positions self))%nat ->
  exists frames self',
    animate_twist (Request None None None) self = (Returns frames, self') /\
    List.length frames = 31%nat /\
    forall i, (0 <= i <= 30)%Z ->
      exists f, nth_error frames (Z.to_nat i) = Some f /\
                frame_of_progression "ray_dutt" 45 (IZR i / 30) self f.
Proof.
  intros H6.
  destruct (animate_twist_returns "ray_dutt" 45 30 self) as
    (frames & self' & Hr & Hall); [lia | exact H6 |].
  exists frames, self'. split; [exact Hr|]. split.
  - rewrite <- (Forall2_length Hall), range_length. reflexivity.
  - intros i Hi.
    apply (Forall2_nth_error _ _ _ Hall (Z.to_nat i) i).
    apply nth_error_range. lia.
Qed.

Lemma animate_twist_defaults_witness :
  (6 <= len (initial_positions default_complex))%nat /\
  exists frames self',
    animate_twist (Request None None None) default_complex =
      (Returns frames, self') /\
    List.length frames = 31%nat /\
    forall i, (0 <= i <= 30)%Z ->
      exists f, nth_error frames (Z.to_nat i) = Some f /\
                frame_of_progression "ray_dutt" 45 (IZR i / 30) default_complex f.
Proof.
  split; [simpl; lia|].
  apply (animate_twist_defaults default_complex). simpl; lia.
Defined.

(** On a complex of fewer than six vertices an animation of one frame or more
    raises [IndexError] in its first frame, for either twist: the Bailar twist
    raises itself, and after the Ray-Dutt twist [generate_planes] does. *)
Theorem animate_twist_short_raises (twist_type : string) (a : R) (n : Z)
  (self : OctahedralComplex) :
  (1 <= n)%Z ->
  (len (initial_positions self) < 6)%nat ->
  fst (animate_twist (Request (Some twist_type) (Some a) (Some n)) self) =
    Raises IndexError.
Proof.
  intros Hn Hs. unfold animate_twist. simpl get.
  unfold range. replace (Z.to_nat (n + 1)) with (S (Z.to_nat n)) by lia.
  simpl. unfold bind at 1.
  assert (E : fst (frame_at twist_type a n 0 self) = Raises IndexError).
  { unfold frame_at, bind, lift, truediv.
    assert (Hn0 : (n =? 0)%Z = false) by (apply Z.eqb_neq; lia).
    rewrite Hn0.
    destruct (String.eqb twist_type "ray_dutt").
    - rewrite ray_dutt_twist_eq. rewrite generate_planes_short; [reflexivity|].
      simpl. rewrite length_map, len_as_float. exact Hs.
    - pose proof (bailar_twist_short a (IZR 0 / IZR n) self Hs) as Eb.
      destruct (bailar_twist a (IZR 0 / IZR n) self) as [[pos | e] s];
        simpl in Eb; [discriminate Eb|].
      injection Eb as ->. reflexivity. }
  destruct (frame_at twist_type a n 0 self) as [[f | e] s]; simpl in E;
    [discriminate E|].
  injection E as ->. reflexivity.
Qed.

Lemma animate_twist_short_raises_witness :
  (1 <= 2)%Z /\
  (len (initial_positions (Complex five_points five_points)) < 6)%nat /\
  fst (animate_twist (Request (Some "ray_dutt"%string) (Some 60) (Some 2%Z))
                     (Complex five_points five_points)) =
    Raises IndexError.
Proof.
  split; [lia|]. split; [simpl; lia|].
  apply (animate_twist_short_raises "ray_dutt" 60 2
           (Complex five_points five_points)); [lia | simpl; lia].
Defined.

(** ** The relative twist of the two faces *)

Lemma top_rot_is_bottom_rot_after_double (a p : R) (u : Point3) :
  top_rot a p u =
    bottom_rot a p (rotate (2 * deg2rad (a * p)) z_axis u).
Proof.
  unfold top_rot, bottom_rot. rewrite !rotate_z, cos_neg, sin_neg, sin_2a, cos_2a.
  pose proof (sin2_cos2 (deg2rad (a * p))) as Hsc. unfold Rsqr in Hsc.
  destruct u as [x y z]; simpl.
  set (s := sin (deg2rad (a * p))) in *. set (c := cos (deg2rad (a * p))) in *.
  apply row_eq; nsatz.
Qed.

(** The Bailar twist turns the face of the vertices 0, 2, 4 against the face
    of the vertices 1, 3, 5 by twice the effective angle: what it returns on
    a float vertex set is one rotation of all six vertices, by minus the
    effective angle about z, of the set in which the vertices 0, 2, 4 alone
    were rotated by twice the effective angle. *)
Theorem bailar_twist_relative_angle (a p : R)
  (p0 p1 p2 p3 p4 p5 : Point3) (pos : ndarray) :
  let double := rotate (2 * deg2rad (a * p)) z_axis in
  fst (bailar_twist a p (Complex (FloatArray [p0; p1; p2; p3; p4; p5]) pos)) =
    Returns (FloatArray (map (bottom_rot a p)
                             [double p0; p1; double p2; p3; double p4; p5])).
Proof.
  intros double. rewrite bailar_twist_float. unfold double. cbn [fst map].
  rewrite <- !top_rot_is_bottom_rot_after_double. reflexivity.
Qed.
